(** * AzureStorageAssistant: the storage tool facade of [server.py]

    A shallow embedding of the nine tool handlers of [src/server.py] and the
    properties of their tool-invocation boundary.

    The handlers are glue over three external collaborators: the Azure
    storage SDK, the local filesystem and the [re] module.  None of them is
    code of the repository, so each one is an interface here (a record of
    operations over an abstract state), and the handlers are written against
    the interfaces in a small state-and-exception monad that also logs every
    call made to a collaborator.  In-memory instances of the interfaces are
    given further down; they serve to run the handlers on concrete inputs. *)

From Stdlib Require Import String Ascii List ZArith Bool Lia DecimalString.
From stdpp Require Import base option gmap strings list.

Set Warnings "-register-all".

Open Scope string_scope.
Open Scope list_scope.

(** ** Python values *)

(** A Python [str] is a [string], one [ascii] per code point; the code points
    covered are those below 256.  [bytes] is a list of bytes. *)
Definition bytes := list Byte.byte.

(** [str(n)] for a non-negative [int] such as [len(xs)]. *)
Definition str_nat (n : nat) : string := NilZero.string_of_uint (Nat.to_uint n).

(** [str(n)] for an [int]. *)
Definition str_int (n : Z) : string := NilZero.string_of_int (Z.to_int n).

(** [sep.join(xs)]. *)
Definition join (sep : string) (xs : list string) : string := String.concat sep xs.

(** [bool(s)] for a [str]: the empty string is falsy. *)
Definition truthy (s : string) : bool :=
  match s with EmptyString => false | String _ _ => true end.

(** [bool(o)] for an optional [str] argument: [None] and [""] are falsy. *)
Definition truthy_opt (o : option string) : bool :=
  match o with None => false | Some s => truthy s end.

(** [bool(xs)] for a list. *)
Definition nonempty {A} (xs : list A) : bool :=
  match xs with [] => false | _ :: _ => true end.

(** [ch.lower()] on one code point below 256: the upper-case letters are A-Z
    and the Latin-1 block C0-DE without the multiplication sign D7; each is
    32 below its lower-case letter. *)
Definition lower_char (c : ascii) : ascii :=
  let n := nat_of_ascii c in
  if (((65 <=? n) && (n <=? 90)) || ((192 <=? n) && (n <=? 222) && negb (n =? 215)))%nat
  then ascii_of_nat (n + 32) else c.

(** [s.lower()]. *)
Fixpoint lower (s : string) : string :=
  match s with
  | EmptyString => EmptyString
  | String c s' => String (lower_char c) (lower s')
  end.

(** [os.path.basename(p)] of [posixpath]: [i = p.rfind('/') + 1; p[i:]].
    [basename_from acc p] scans [p] with [acc] the text since the last
    slash. *)
Fixpoint basename_from (acc : string) (p : string) : string :=
  match p with
  | EmptyString => acc
  | String c p' =>
      if Ascii.eqb c "/" then basename_from EmptyString p'
      else basename_from (acc +:+ String c EmptyString) p'
  end.

Definition basename (p : string) : string := basename_from EmptyString p.

(** ** Exceptions and results *)

(** The exception classes the handlers tell apart.  [Exception] stands for
    every other subclass of Python's [Exception] ([OSError], [ValueError],
    [re.error], [HttpResponseError], ...); the payload is [str(e)]. *)
Inductive exn : Type :=
| ResourceNotFoundError (msg : string)
| ResourceExistsError (msg : string)
| Exception (msg : string).

Definition str (e : exn) : string :=
  match e with
  | ResourceNotFoundError m => m
  | ResourceExistsError m => m
  | Exception m => m
  end.

(** What a call produces: a value or a raised exception. *)
Inductive result (A : Type) : Type :=
| Return (a : A)
| Raise (e : exn).
Arguments Return {A} a.
Arguments Raise {A} e.

Definition returns {A} (r : result A) : bool :=
  match r with Return _ => true | Raise _ => false end.

(** ** json.dumps(obj, indent=2) *)

(** The JSON values [get_blob_info] builds: [None], an [int], a [str], a
    [dict] with [str] keys in insertion order. *)
Inductive json : Type :=
| JNull
| JInt (n : Z)
| JString (s : string)
| JObject (fields : list (string * json)).

Definition quote : string := String (ascii_of_nat 34) EmptyString.

Definition hex_digit (n : nat) : ascii :=
  ascii_of_nat (if (n <? 10)%nat then 48 + n else 87 + n).

(** ['\\u{0:04x}'.format(n)] for [n] below 256. *)
Definition escape_u (n : nat) : string :=
  "\u00" +:+ String (hex_digit (n / 16)) (String (hex_digit (n mod 16)) EmptyString).

(** One character under [json.encoder.py_encode_basestring_ascii]: the
    quote, the backslash and everything outside space..tilde is escaped. *)
Definition escape_char (c : ascii) : string :=
  let n := nat_of_ascii c in
  if (n =? 34)%nat then "\" +:+ quote
  else if (n =? 92)%nat then "\\"
  else if (n =? 10)%nat then "\n"
  else if (n =? 13)%nat then "\r"
  else if (n =? 9)%nat then "\t"
  else if (n =? 12)%nat then "\f"
  else if (n =? 8)%nat then "\b"
  else if ((32 <=? n) && (n <=? 126))%nat then String c EmptyString
  else escape_u n.

Fixpoint escape_body (s : string) : string :=
  match s with
  | EmptyString => EmptyString
  | String c s' => escape_char c +:+ escape_body s'
  end.

Definition encode_basestring_ascii (s : string) : string :=
  quote +:+ escape_body s +:+ quote.

Definition newline : string := String (ascii_of_nat 10) EmptyString.

Fixpoint spaces (n : nat) : string :=
  match n with O => EmptyString | S n' => String " " (spaces n') end.

(** [newline_indent] of the encoder at nesting [level], with [indent=2]. *)
Definition newline_indent (level : nat) : string := newline +:+ spaces (2 * level).

(** The encoder at nesting [level]: an empty dict is [{}]; otherwise the
    items are separated by a comma and [newline_indent], key and value by
    a colon and a space. *)
Fixpoint dumps_at (level : nat) (j : json) : string :=
  match j with
  | JNull => "null"
  | JInt n => str_int n
  | JString s => encode_basestring_ascii s
  | JObject [] => "{}"
  | JObject fields =>
      "{" +:+ newline_indent (S level)
      +:+ join ("," +:+ newline_indent (S level))
            (List.map (fun kv => match kv with
                                 | (k, v) => encode_basestring_ascii k +:+ ": " +:+ dumps_at (S level) v
                                 end) fields)
      +:+ newline_indent level +:+ "}"
  end.

Definition json_dumps_indent2 (j : json) : string := dumps_at 0 j.

(** [d[key]] on a JSON object. *)
Fixpoint assoc {A} (key : string) (kvs : list (string * A)) : option A :=
  match kvs with
  | [] => None
  | (k, v) :: rest => if String.eqb k key then Some v else assoc key rest
  end.

Definition json_field (key : string) (j : json) : option json :=
  match j with JObject fields => assoc key fields | _ => None end.


(** ** The collaborators *)

(** [ContentSettings(content_type=...)]: the one property the facade sets. *)
Record ContentSettings : Type := { cs_content_type : option string }.

(** The handles [get_container_client] and [get_blob_client] build. *)
Record ContainerClient : Type := { cc_container_name : string }.
Record BlobClient : Type := { bc_container_name : string; bc_blob_name : string }.

(** The attributes of [BlobProperties] that [get_blob_info] reads.  The two
    timestamps are [datetime] values or [None], kept by their [str(...)];
    [bp_metadata] is a [dict] in insertion order, or [None]. *)
Record BlobProperties : Type := {
  bp_size : Z;
  bp_content_type : option string;
  bp_last_modified : option string;
  bp_creation_time : option string;
  bp_lease_status : option string;
  bp_metadata : option (list (string * string))
}.

(** [azure.storage.blob.BlobServiceClient] and the clients it hands out, over
    the state [Account] of the storage account behind them.  Every method
    returns or raises, and may change the account either way.  [Downloader]
    is the [StorageStreamDownloader] of [download_blob]. *)
Record BlobServiceClient (Account Downloader : Type) : Type := {
  sdk_list_containers : Account -> result (list string) * Account;
  sdk_get_container_client : string -> Account -> result ContainerClient * Account;
  sdk_get_blob_client : string -> string -> Account -> result BlobClient * Account;
  sdk_create_container : string -> Account -> result unit * Account;
  sdk_delete_container : string -> Account -> result unit * Account;
  sdk_list_blobs : ContainerClient -> option string -> Account -> result (list string) * Account;
  sdk_upload_blob : ContainerClient -> string -> bytes -> bool -> ContentSettings ->
                    Account -> result unit * Account;
  sdk_get_blob_properties : BlobClient -> Account -> result BlobProperties * Account;
  sdk_download_blob : BlobClient -> Account -> result Downloader * Account;
  sdk_readall : Downloader -> Account -> result bytes * Account;
  sdk_delete_blob : BlobClient -> Account -> result unit * Account
}.
Arguments sdk_list_containers {Account Downloader}.
Arguments sdk_get_container_client {Account Downloader}.
Arguments sdk_get_blob_client {Account Downloader}.
Arguments sdk_create_container {Account Downloader}.
Arguments sdk_delete_container {Account Downloader}.
Arguments sdk_list_blobs {Account Downloader}.
Arguments sdk_upload_blob {Account Downloader}.
Arguments sdk_get_blob_properties {Account Downloader}.
Arguments sdk_download_blob {Account Downloader}.
Arguments sdk_readall {Account Downloader}.
Arguments sdk_delete_blob {Account Downloader}.

(** The local filesystem as the facade uses it, over its state [Disk]:
    [os.path.exists] (which answers [False] instead of raising),
    [open(p, "rb")] giving the bytes the stream will deliver,
    [open(p, "wb")], and [file.write] on a file opened for writing.
    [fs_content] observes the bytes a path holds; it is not an operation of
    the facade. *)
Record FileSystem (Disk : Type) : Type := {
  fs_exists : string -> Disk -> bool;
  fs_open_rb : string -> Disk -> result bytes;
  fs_open_wb : string -> Disk -> result unit * Disk;
  fs_write : string -> bytes -> Disk -> result unit * Disk;
  fs_content : Disk -> string -> option bytes
}.
Arguments fs_exists {Disk}.
Arguments fs_open_rb {Disk}.
Arguments fs_open_wb {Disk}.
Arguments fs_write {Disk}.
Arguments fs_content {Disk}.

(** What [open(p, "wb")] means: when it returns, [p] holds no bytes. *)
Definition truncating {Disk} (os : FileSystem Disk) : Prop :=
  forall p d d', fs_open_wb os p d = (Return tt, d') -> fs_content os d' p = Some [].

(** The [re] module: [re.search(pattern, s)] compiles the pattern, which
    raises [re.error] on a malformed one, and searches [s] for a match
    anywhere in it. *)
Record ReModule (Regex : Type) : Type := {
  re_compile : string -> result Regex;
  regex_search : Regex -> string -> bool
}.
Arguments re_compile {Regex}.
Arguments regex_search {Regex}.

Definition re_search {Regex} (re : ReModule Regex) (pattern s : string) : result bool :=
  match re_compile re pattern with
  | Return r => Return (regex_search re r s)
  | Raise e => Raise e
  end.

(** ** Calls made to the collaborators *)

Inductive Event : Type :=
| SdkListContainers
| SdkGetContainerClient (container : string)
| SdkGetBlobClient (container blob : string)
| SdkCreateContainer (container : string)
| SdkDeleteContainer (container : string)
| SdkListBlobs (cc : ContainerClient) (name_starts_with : option string)
| SdkUploadBlob (cc : ContainerClient) (name : string) (data : bytes)
                (overwrite : bool) (content_settings : ContentSettings)
| SdkGetBlobProperties (bc : BlobClient)
| SdkDownloadBlob (bc : BlobClient)
| SdkReadall
| SdkDeleteBlob (bc : BlobClient)
| OsPathExists (path : string)
| OpenRb (path : string)
| OpenWb (path : string)
| FileWrite (path : string) (data : bytes).

(** A call to the storage client, as against one to the local filesystem. *)
Definition is_sdk_call (ev : Event) : bool :=
  match ev with
  | OsPathExists _ | OpenRb _ | OpenWb _ | FileWrite _ _ => false
  | _ => true
  end.

Definition is_upload (ev : Event) : bool :=
  match ev with SdkUploadBlob _ _ _ _ _ => true | _ => false end.

(** ** The monad of the handlers *)

(** What a handler runs in: the storage account, the local disk, and the
    calls made so far, oldest first. *)
Record World (Account Disk : Type) : Type := mkWorld {
  account : Account;
  disk : Disk;
  trace : list Event
}.
Arguments mkWorld {Account Disk}.
Arguments account {Account Disk}.
Arguments disk {Account Disk}.
Arguments trace {Account Disk}.

(** A computation returns or raises, and leaves a world behind. *)
Definition M (Account Disk : Type) (A : Type) : Type :=
  World Account Disk -> result A * World Account Disk.

#[global] Instance M_ret {Account Disk} : MRet (M Account Disk) :=
  fun A (a : A) w => (Return a, w).

#[global] Instance M_bind {Account Disk} : MBind (M Account Disk) :=
  fun A B (f : A -> M Account Disk B) (m : M Account Disk A) w =>
    match m w with
    | (Return a, w') => f a w'
    | (Raise e, w') => (Raise e, w')
    end.

(** [try: body except Exception as e: handler e]. *)
Definition try_except {Account Disk A} (body : M Account Disk A)
    (handler : exn -> M Account Disk A) : M Account Disk A :=
  fun w =>
    match body w with
    | (Return a, w') => (Return a, w')
    | (Raise e, w') => handler e w'
    end.

(** A pure step that may raise. *)
Definition lift_result {Account Disk A} (r : result A) : M Account Disk A :=
  fun w => (r, w).

(** A method call on the storage client: logged, then run on the account. *)
Definition sdk {Account Disk A} (ev : Event)
    (f : Account -> result A * Account) : M Account Disk A :=
  fun w =>
    let (r, a') := f (account w) in
    (r, mkWorld a' (disk w) (trace w ++ [ev])).

(** A filesystem call: logged, then run on the disk. *)
Definition io {Account Disk A} (ev : Event)
    (f : Disk -> result A * Disk) : M Account Disk A :=
  fun w =>
    let (r, d') := f (disk w) in
    (r, mkWorld (account w) d' (trace w ++ [ev])).

(** [[x for x in xs if pred(x)]] where [pred] may raise: the elements are
    tested in order and the first raise ends the comprehension. *)
Fixpoint comprehension_if (pred : string -> result bool) (xs : list string)
    : result (list string) :=
  match xs with
  | [] => Return []
  | x :: rest =>
      match pred x with
      | Raise e => Raise e
      | Return b =>
          match comprehension_if pred rest with
          | Raise e => Raise e
          | Return ys => Return (if b then x :: ys else ys)
          end
      end
  end.

(** [str(x)] of an attribute that is a value or [None]. *)
Definition str_opt (o : option string) : string := default "None" o.

Definition json_opt (o : option string) : json :=
  match o with Some s => JString s | None => JNull end.

(** [dict(properties.metadata) if properties.metadata else {}]. *)
Definition metadata_or_empty (props : BlobProperties) : list (string * string) :=
  match bp_metadata props with
  | Some (kv :: rest) => kv :: rest
  | _ => []
  end.

Definition json_dict (d : list (string * string)) : json :=
  JObject (List.map (fun kv => (fst kv, JString (snd kv))) d).

(** The [info] dict of [get_blob_info]. *)
Definition blob_info (blob_name : string) (props : BlobProperties) : json :=
  JObject
    [ ("name", JString blob_name);
      ("size_bytes", JInt (bp_size props));
      ("content_type", json_opt (bp_content_type props));
      ("last_modified", JString (str_opt (bp_last_modified props)));
      ("creation_time", JString (str_opt (bp_creation_time props)));
      ("lease_status", json_opt (bp_lease_status props));
      ("metadata", json_dict (metadata_or_empty props)) ].

(** [if not blob_name: blob_name = os.path.basename(local_file_path)]. *)
Definition upload_name (local_file_path : string) (blob_name : option string) : string :=
  if negb (truthy_opt blob_name) then basename local_file_path else default "" blob_name.

(** [if not local_file_path: local_file_path = os.path.basename(blob_name)]. *)
Definition download_destination (blob_name : string) (local_file_path : option string)
    : string :=
  if negb (truthy_opt local_file_path) then basename blob_name
  else default "" local_file_path.

(** ** Messages *)

Definition NOT_INITIALIZED : string :=
  "Azure Blob Storage client is not initialized. Check your connection string.".

Definition NO_CONTAINERS : string := "No containers found in this storage account.".

Definition confirm_container_prompt (container : string) : string :=
  "To delete container '" +:+ container +:+ "', set confirm parameter to 'yes'.".

Definition confirm_blob_prompt (blob_name : string) : string :=
  "To delete blob '" +:+ blob_name +:+ "', set confirm parameter to 'yes'.".

Definition local_file_not_found (local_file_path : string) : string :=
  "Local file '" +:+ local_file_path +:+ "' not found.".

Definition blob_not_found (blob_name container : string) : string :=
  "Blob '" +:+ blob_name +:+ "' not found in container '" +:+ container +:+ "'.".

Definition container_not_found (container : string) : string :=
  "Container '" +:+ container +:+ "' not found.".

Definition found_containers (containers : list string) : string :=
  "Found " +:+ str_nat (length containers) +:+ " containers: " +:+ join ", " containers.

(** What [list_blobs] answers for a listing [blobs]. *)
Definition blobs_summary (container prefix : string) (blobs : list string) : string :=
  if nonempty blobs
  then "Found " +:+ str_nat (length blobs) +:+ " blobs in " +:+ container +:+ ": "
       +:+ join ", " blobs
  else "No blobs found in " +:+ container
       +:+ (if truthy prefix then " with prefix '" +:+ prefix +:+ "'" else ".").

(** What [search_blobs] answers for the matching names. *)
Definition search_summary (container pattern : string) (matching_blobs : list string) : string :=
  if nonempty matching_blobs
  then "Found " +:+ str_nat (length matching_blobs) +:+ " matching blobs in " +:+ container
       +:+ ": " +:+ join ", " matching_blobs
  else "No blobs matching pattern '" +:+ pattern +:+ "' found in " +:+ container +:+ ".".

Definition search_error (msg : string) : string := "Error searching blobs: " +:+ msg.

(** ** The handlers of [server.py] *)

Section Facade.
Context {Account Downloader Disk Regex : Type}.

(** The local filesystem, the [re] module, and
    [mimetypes.guess_type(p)[0]], whose table comes from the system. *)
Variable os : FileSystem Disk.
Variable re : ReModule Regex.
Variable guess_type : string -> option string.

(** The module global: [None] when no connection string was found or the
    client could not be built at start-up. *)
Variable blob_service_client : option (BlobServiceClient Account Downloader).

#[local] Abbreviation Tool := (M Account Disk string).

Definition list_containers : Tool :=
  match blob_service_client with
  | None => mret NOT_INITIALIZED
  | Some client =>
      try_except
        (containers ← sdk SdkListContainers (sdk_list_containers client);
         if nonempty containers then mret (found_containers containers)
         else mret NO_CONTAINERS)
        (fun e => mret ("Error listing containers: " +:+ str e))
  end.

Definition list_blobs (container prefix : string) : Tool :=
  match blob_service_client with
  | None => mret NOT_INITIALIZED
  | Some client =>
      try_except
        (container_client ← sdk (SdkGetContainerClient container)
                                (sdk_get_container_client client container);
         blobs ← sdk (SdkListBlobs container_client (Some prefix))
                     (sdk_list_blobs client container_client (Some prefix));
         mret (blobs_summary container prefix blobs))
        (fun e => mret ("Error listing blobs in " +:+ container +:+ ": " +:+ str e))
  end.

Definition get_blob_info (container blob_name : string) : Tool :=
  match blob_service_client with
  | None => mret NOT_INITIALIZED
  | Some client =>
      try_except
        (blob_client ← sdk (SdkGetBlobClient container blob_name)
                           (sdk_get_blob_client client container blob_name);
         properties ← sdk (SdkGetBlobProperties blob_client)
                          (sdk_get_blob_properties client blob_client);
         mret (json_dumps_indent2 (blob_info blob_name properties)))
        (fun e =>
           match e with
           | ResourceNotFoundError _ => mret (blob_not_found blob_name container)
           | _ => mret ("Error getting blob info: " +:+ str e)
           end)
  end.

Definition create_container (container : string) : Tool :=
  match blob_service_client with
  | None => mret NOT_INITIALIZED
  | Some client =>
      try_except
        (_ ← sdk (SdkCreateContainer container) (sdk_create_container client container);
         mret ("Container '" +:+ container +:+ "' created successfully."))
        (fun e =>
           match e with
           | ResourceExistsError _ => mret ("Container '" +:+ container +:+ "' already exists.")
           | _ => mret ("Error creating container: " +:+ str e)
           end)
  end.

Definition delete_container (container confirm : string) : Tool :=
  match blob_service_client with
  | None => mret NOT_INITIALIZED
  | Some client =>
      if negb (String.eqb (lower confirm) "yes")
      then mret (confirm_container_prompt container)
      else
        try_except
          (_ ← sdk (SdkDeleteContainer container) (sdk_delete_container client container);
           mret ("Container '" +:+ container +:+ "' deleted successfully."))
          (fun e =>
             match e with
             | ResourceNotFoundError _ => mret (container_not_found container)
             | _ => mret ("Error deleting container: " +:+ str e)
             end)
  end.

(** The [with open(local_file_path, "rb") as data] block is the open followed
    by the upload, which is handed the bytes the stream delivers. *)
Definition upload_blob (container local_file_path : string)
    (blob_name : option string) : Tool :=
  match blob_service_client with
  | None => mret NOT_INITIALIZED
  | Some client =>
      found ← io (OsPathExists local_file_path)
                 (fun d => (Return (fs_exists os local_file_path d), d));
      if negb found then mret (local_file_not_found local_file_path)
      else
        let blob_name := upload_name local_file_path blob_name in
        try_except
          (let content_type := guess_type local_file_path in
           let content_settings := {| cs_content_type := content_type |} in
           container_client ← sdk (SdkGetContainerClient container)
                                  (sdk_get_container_client client container);
           data ← io (OpenRb local_file_path)
                     (fun d => (fs_open_rb os local_file_path d, d));
           _ ← sdk (SdkUploadBlob container_client blob_name data true content_settings)
                   (sdk_upload_blob client container_client blob_name data true
                      content_settings);
           mret ("File uploaded successfully to '" +:+ container +:+ "/" +:+ blob_name
                 +:+ "'"))
          (fun e =>
             match e with
             | ResourceNotFoundError _ => mret (container_not_found container)
             | _ => mret ("Error uploading file: " +:+ str e)
             end)
  end.

(** The [with open(local_file_path, "wb") as file] block is the open followed
    by its body; the bytes reach the file at [file.write]. *)
Definition download_blob (container blob_name : string)
    (local_file_path : option string) : Tool :=
  match blob_service_client with
  | None => mret NOT_INITIALIZED
  | Some client =>
      let local_file_path := download_destination blob_name local_file_path in
      try_except
        (blob_client ← sdk (SdkGetBlobClient container blob_name)
                           (sdk_get_blob_client client container blob_name);
         _ ← io (OpenWb local_file_path) (fs_open_wb os local_file_path);
         data ← sdk (SdkDownloadBlob blob_client) (sdk_download_blob client blob_client);
         content ← sdk SdkReadall (sdk_readall client data);
         _ ← io (FileWrite local_file_path content) (fs_write os local_file_path content);
         mret ("Blob '" +:+ blob_name +:+ "' downloaded successfully to '"
               +:+ local_file_path +:+ "'"))
        (fun e =>
           match e with
           | ResourceNotFoundError _ => mret (blob_not_found blob_name container)
           | _ => mret ("Error downloading blob: " +:+ str e)
           end)
  end.

Definition delete_blob (container blob_name confirm : string) : Tool :=
  match blob_service_client with
  | None => mret NOT_INITIALIZED
  | Some client =>
      if negb (String.eqb (lower confirm) "yes")
      then mret (confirm_blob_prompt blob_name)
      else
        try_except
          (blob_client ← sdk (SdkGetBlobClient container blob_name)
                             (sdk_get_blob_client client container blob_name);
           _ ← sdk (SdkDeleteBlob blob_client) (sdk_delete_blob client blob_client);
           mret ("Blob '" +:+ blob_name +:+ "' deleted successfully from container '"
                 +:+ container +:+ "'."))
          (fun e =>
             match e with
             | ResourceNotFoundError _ => mret (blob_not_found blob_name container)
             | _ => mret ("Error deleting blob: " +:+ str e)
             end)
  end.

Definition search_blobs (container pattern : string) : Tool :=
  match blob_service_client with
  | None => mret NOT_INITIALIZED
  | Some client =>
      try_except
        (container_client ← sdk (SdkGetContainerClient container)
                                (sdk_get_container_client client container);
         all_blobs ← sdk (SdkListBlobs container_client None)
                         (sdk_list_blobs client container_client None);
         matching_blobs ← lift_result (comprehension_if (re_search re pattern) all_blobs);
         mret (search_summary container pattern matching_blobs))
        (fun e => mret (search_error (str e)))
  end.

(** A tool call as the dispatcher makes it: an argument that has a default
    in the signature may be left out. *)
Inductive Invocation : Type :=
| ListContainers
| ListBlobs (container : string) (prefix : option string)
| GetBlobInfo (container blob_name : string)
| CreateContainer (container : string)
| DeleteContainer (container : string) (confirm : option string)
| UploadBlob (container local_file_path : string) (blob_name : option string)
| DownloadBlob (container blob_name : string) (local_file_path : option string)
| DeleteBlob (container blob_name : string) (confirm : option string)
| SearchBlobs (container pattern : string).

(** The call with the defaults of the signatures filled in:
    [prefix=""], [confirm="no"]. *)
Definition invoke (call : Invocation) : Tool :=
  match call with
  | ListContainers => list_containers
  | ListBlobs container prefix => list_blobs container (default "" prefix)
  | GetBlobInfo container blob_name => get_blob_info container blob_name
  | CreateContainer container => create_container container
  | DeleteContainer container confirm => delete_container container (default "no" confirm)
  | UploadBlob container local_file_path blob_name =>
      upload_blob container local_file_path blob_name
  | DownloadBlob container blob_name local_file_path =>
      download_blob container blob_name local_file_path
  | DeleteBlob container blob_name confirm =>
      delete_blob container blob_name (default "no" confirm)
  | SearchBlobs container pattern => search_blobs container pattern
  end.

End Facade.

Arguments Invocation : clear implicits.

(** The calls a computation adds to the log when run in [w]. *)
Definition new_calls {Account Disk A} (m : M Account Disk A) (w : World Account Disk)
    : list Event :=
  drop (length (trace w)) (trace (snd (m w))).

(** ** An in-memory storage account *)

(** A stand-in for the storage service, to run the handlers on: containers
    and their blobs are kept in listing order. *)
Module MemAccount.

Record StoredBlob : Type := {
  sb_content : bytes;
  sb_content_type : option string;
  sb_metadata : list (string * string);
  sb_last_modified : string;
  sb_creation_time : string
}.

Definition Container := list (string * StoredBlob).
Definition Account := list (string * Container).

(** [put k v kvs] replaces the entry of [k] in place, or appends it. *)
Fixpoint put {A} (k : string) (v : A) (kvs : list (string * A)) : list (string * A) :=
  match kvs with
  | [] => [(k, v)]
  | (k', v') :: rest => if String.eqb k' k then (k, v) :: rest else (k', v') :: put k v rest
  end.

Fixpoint remove {A} (k : string) (kvs : list (string * A)) : list (string * A) :=
  match kvs with
  | [] => []
  | (k', v') :: rest => if String.eqb k' k then rest else (k', v') :: remove k rest
  end.

Definition no_container : exn :=
  ResourceNotFoundError "The specified container does not exist.".
Definition no_blob : exn := ResourceNotFoundError "The specified blob does not exist.".

Definition lookup_blob (bc : BlobClient) (a : Account) : result StoredBlob :=
  match assoc (bc_container_name bc) a with
  | None => Raise no_container
  | Some blobs =>
      match assoc (bc_blob_name bc) blobs with
      | None => Raise no_blob
      | Some b => Return b
      end
  end.

Definition properties_of (b : StoredBlob) : BlobProperties :=
  {| bp_size := Z.of_nat (length (sb_content b));
     bp_content_type := sb_content_type b;
     bp_last_modified := Some (sb_last_modified b);
     bp_creation_time := Some (sb_creation_time b);
     bp_lease_status := Some "unlocked";
     bp_metadata := Some (sb_metadata b) |}.

Definition new_blob (data : bytes) (cs : ContentSettings) : StoredBlob :=
  {| sb_content := data;
     sb_content_type := cs_content_type cs;
     sb_metadata := [];
     sb_last_modified := "2024-01-01 00:00:00+00:00";
     sb_creation_time := "2024-01-01 00:00:00+00:00" |}.

(** The client: both handle constructors refuse an empty name with a
    [ValueError], as the SDK's do. *)
Definition client : BlobServiceClient Account bytes :=
  {| sdk_list_containers := fun a => (Return (List.map fst a), a);
     sdk_get_container_client := fun c a =>
       (if truthy c then Return {| cc_container_name := c |}
        else Raise (Exception "Please specify a container name."), a);
     sdk_get_blob_client := fun c b a =>
       (if truthy c && truthy b
        then Return {| bc_container_name := c; bc_blob_name := b |}
        else Raise (Exception "Please specify a container name and blob name."), a);
     sdk_create_container := fun c a =>
       match assoc c a with
       | Some _ => (Raise (ResourceExistsError "The specified container already exists."), a)
       | None => (Return tt, a ++ [(c, [])])
       end;
     sdk_delete_container := fun c a =>
       match assoc c a with
       | Some _ => (Return tt, remove c a)
       | None => (Raise no_container, a)
       end;
     sdk_list_blobs := fun cc name_starts_with a =>
       match assoc (cc_container_name cc) a with
       | None => (Raise no_container, a)
       | Some blobs =>
           (Return (List.filter (String.prefix (default "" name_starts_with))
                      (List.map fst blobs)), a)
       end;
     sdk_upload_blob := fun cc name data overwrite cs a =>
       match assoc (cc_container_name cc) a with
       | None => (Raise no_container, a)
       | Some blobs =>
           match assoc name blobs with
           | Some _ =>
               if overwrite
               then (Return tt, put (cc_container_name cc) (put name (new_blob data cs) blobs) a)
               else (Raise (ResourceExistsError "The specified blob already exists."), a)
           | None =>
               (Return tt, put (cc_container_name cc) (put name (new_blob data cs) blobs) a)
           end
       end;
     sdk_get_blob_properties := fun bc a =>
       (match lookup_blob bc a with
        | Return b => Return (properties_of b)
        | Raise e => Raise e
        end, a);
     sdk_download_blob := fun bc a =>
       (match lookup_blob bc a with
        | Return b => Return (sb_content b)
        | Raise e => Raise e
        end, a);
     sdk_readall := fun data a => (Return data, a);
     sdk_delete_blob := fun bc a =>
       match lookup_blob bc a with
       | Return _ =>
           (Return tt,
            put (bc_container_name bc)
              (remove (bc_blob_name bc) (default [] (assoc (bc_container_name bc) a))) a)
       | Raise e => (Raise e, a)
       end |}.

End MemAccount.

(** ** An in-memory filesystem *)

(** A flat disk: a path is a key and holds a regular file or a directory.
    Opening the empty path or a directory fails with the [OSError] text of
    Linux. *)
Module MemFS.

Inductive node : Type :=
| File (content : bytes)
| Directory.

Abbreviation Disk := (gmap string node).

Definition enoent (p : string) : exn :=
  Exception ("[Errno 2] No such file or directory: '" +:+ p +:+ "'").
Definition eisdir (p : string) : exn :=
  Exception ("[Errno 21] Is a directory: '" +:+ p +:+ "'").

Definition exists_ (p : string) (d : Disk) : bool :=
  match d !! p with Some _ => true | None => false end.

Definition open_rb (p : string) (d : Disk) : result bytes :=
  match d !! p with
  | Some (File content) => Return content
  | Some Directory => Raise (eisdir p)
  | None => Raise (enoent p)
  end.

Definition open_wb (p : string) (d : Disk) : result unit * Disk :=
  if negb (truthy p) then (Raise (enoent p), d)
  else match d !! p with
       | Some Directory => (Raise (eisdir p), d)
       | _ => (Return tt, <[p := File []]> d)
       end.

Definition write (p : string) (data : bytes) (d : Disk) : result unit * Disk :=
  match d !! p with
  | Some (File content) => (Return tt, <[p := File (content ++ data)]> d)
  | _ => (Raise (Exception "[Errno 9] Bad file descriptor"), d)
  end.

Definition content (d : Disk) (p : string) : option bytes :=
  match d !! p with
  | Some (File c) => Some c
  | _ => None
  end.

Definition os : FileSystem Disk :=
  {| fs_exists := exists_;
     fs_open_rb := open_rb;
     fs_open_wb := open_wb;
     fs_write := write;
     fs_content := content |}.

End MemFS.

(** ** A fragment of the [re] module *)

#[global] Instance result_ret : MRet result := fun A (a : A) => Return a.
#[global] Instance result_bind : MBind result :=
  fun A B (f : A -> result B) (r : result A) =>
    match r with Return a => f a | Raise e => Raise e end.

(** A stand-in for [re], to run [search_blobs] on: literal characters, [.],
    the anchors [^] and [$], the postfix operators [*], [+] and [?],
    alternation, groups and escaped punctuation, with the meaning and the
    [re.error] texts of [re].  Sets, counted and lazy repetition, group
    extensions and class escapes are outside the fragment; [compile] refuses
    them with an error of its own, so the instance is only to be run on
    patterns of the fragment. *)
Module MiniRe.

Inductive regex : Type :=
| Eps
| Chr (c : ascii)
| Any
| Bol
| Eol
| Seq (r1 r2 : regex)
| Alt (r1 r2 : regex)
| Star (r : regex).

Definition newline_char : ascii := ascii_of_nat 10.

(** [$] holds at the end and before a newline that ends the string. *)
Definition at_end (s : string) : bool :=
  match s with
  | EmptyString => true
  | String c EmptyString => Ascii.eqb c newline_char
  | _ => false
  end.

(** Backtracking matcher in continuation style: [matches r b s k] tries
    [r] at the front of [s], [b] telling whether [s] is the whole subject,
    and hands what is left to [k].  An iteration of a star has to consume
    something, so the loop is bounded by the length of the subject. *)
Fixpoint matches (r : regex) (at_start : bool) (s : string)
    (k : bool -> string -> bool) : bool :=
  match r with
  | Eps => k at_start s
  | Chr c =>
      match s with
      | String c' s' => Ascii.eqb c c' && k false s'
      | EmptyString => false
      end
  | Any =>
      match s with
      | String c' s' => negb (Ascii.eqb c' newline_char) && k false s'
      | EmptyString => false
      end
  | Bol => at_start && k at_start s
  | Eol => at_end s && k at_start s
  | Seq r1 r2 => matches r1 at_start s (fun b s' => matches r2 b s' k)
  | Alt r1 r2 => matches r1 at_start s k || matches r2 at_start s k
  | Star r' =>
      (fix loop (n : nat) (b : bool) (s0 : string) : bool :=
         k b s0
         || match n with
            | O => false
            | S n' =>
                matches r' b s0
                  (fun b' s' => (String.length s' <? String.length s0)%nat && loop n' b' s')
            end) (String.length s) at_start s
  end.

(** [pattern.search(s)]: a match starting at some position of [s]. *)
Fixpoint search_from (r : regex) (at_start : bool) (s : string) : bool :=
  matches r at_start s (fun _ _ => true)
  || match s with
     | String _ s' => search_from r false s'
     | EmptyString => false
     end.

Definition search (r : regex) (s : string) : bool := search_from r true s.

Definition error {A} (msg : string) (pos : nat) : result A :=
  Raise (Exception (msg +:+ " at position " +:+ str_nat pos)).

Definition unsupported {A} : result A :=
  Raise (Exception "pattern outside the supported fragment").

Definition is_repeat (c : ascii) : bool :=
  Ascii.eqb c "*" || Ascii.eqb c "+" || Ascii.eqb c "?".

Definition is_punctuation (c : ascii) : bool :=
  existsb (Ascii.eqb c)
    ["."; "^"; "$"; "*"; "+"; "?"; "("; ")"; "|"; "\"; "["; "]"; "{"; "}"]%char.

(** The postfix operator, if any, after an atom [r]. *)
Definition postfix (r : regex) (s : string) (pos : nat)
    : result (regex * string * nat) :=
  match s with
  | String c s' =>
      if is_repeat c then
        match r with
        | Bol | Eol => error "nothing to repeat" pos
        | _ =>
            let r' := if Ascii.eqb c "*" then Star r
                      else if Ascii.eqb c "+" then Seq r (Star r)
                      else Alt r Eps in
            match s' with
            | String c2 _ =>
                if Ascii.eqb c2 "*" then error "multiple repeat" (S pos)
                else if is_repeat c2 then unsupported
                else Return (r', s', S pos)
            | EmptyString => Return (r', s', S pos)
            end
        end
      else Return (r, s, pos)
  | EmptyString => Return (r, s, pos)
  end.

(** Recursive descent; [fuel] bounds the depth, which the length of the
    pattern bounds in turn. *)
Fixpoint parse_alt (fuel : nat) (s : string) (pos : nat) : result (regex * string * nat) :=
  match fuel with
  | O => unsupported
  | S fuel' =>
      '(r1, rest, pos1) ← parse_seq fuel' s pos;
      match rest with
      | String "|" rest' =>
          '(r2, rest2, pos2) ← parse_alt fuel' rest' (S pos1);
          Return (Alt r1 r2, rest2, pos2)
      | _ => Return (r1, rest, pos1)
      end
  end
with parse_seq (fuel : nat) (s : string) (pos : nat) : result (regex * string * nat) :=
  match fuel with
  | O => unsupported
  | S fuel' =>
      match s with
      | EmptyString => Return (Eps, s, pos)
      | String c s' =>
          if Ascii.eqb c "|" || Ascii.eqb c ")" then Return (Eps, s, pos)
          else
            '(atom, rest, pos1) ←
              (if Ascii.eqb c "(" then
                 match s' with
                 | String "?" _ => unsupported
                 | _ =>
                     '(r, rest, pos1) ← parse_alt fuel' s' (S pos);
                     match rest with
                     | String ")" rest' => Return (r, rest', S pos1)
                     | _ => error "missing ), unterminated subpattern" pos
                     end
                 end
               else if Ascii.eqb c "\" then
                 match s' with
                 | EmptyString => error "bad escape (end of pattern)" pos
                 | String c2 s'' =>
                     if is_punctuation c2 then Return (Chr c2, s'', S (S pos))
                     else unsupported
                 end
               else if is_repeat c then error "nothing to repeat" pos
               else if Ascii.eqb c "[" || Ascii.eqb c "{" then unsupported
               else if Ascii.eqb c "." then Return (Any, s', S pos)
               else if Ascii.eqb c "^" then Return (Bol, s', S pos)
               else if Ascii.eqb c "$" then Return (Eol, s', S pos)
               else Return (Chr c, s', S pos));
            '(item, rest', pos2) ← postfix atom rest pos1;
            '(r, rest'', pos3) ← parse_seq fuel' rest' pos2;
            Return (Seq item r, rest'', pos3)
      end
  end.

Definition compile (pattern : string) : result regex :=
  '(r, rest, pos) ← parse_alt (2 * String.length pattern + 2) pattern 0;
  match rest with
  | EmptyString => Return r
  | _ => error "unbalanced parenthesis" pos
  end.

Definition re : ReModule regex :=
  {| re_compile := compile; regex_search := search |}.

End MiniRe.


(** ** Sample worlds *)

(** Small accounts and disks on which the handlers are run below. *)
Module Demo.

(** [s.endswith(suffix)]. *)
Definition ends_with (suffix s : string) : bool :=
  String.eqb
    (String.substring (String.length s - String.length suffix) (String.length suffix) s)
    suffix
  && (String.length suffix <=? String.length s)%nat.

(** A few rows of the table behind [mimetypes.guess_type]. *)
Definition guess_type (p : string) : option string :=
  if ends_with ".txt" p then Some "text/plain"
  else if ends_with ".json" p then Some "application/json"
  else if ends_with ".png" p then Some "image/png"
  else None.

Definition blob (data : bytes) (metadata : list (string * string)) : MemAccount.StoredBlob :=
  {| MemAccount.sb_content := data;
     MemAccount.sb_content_type := Some "application/octet-stream";
     MemAccount.sb_metadata := metadata;
     MemAccount.sb_last_modified := "2024-05-02 10:30:00+00:00";
     MemAccount.sb_creation_time := "2024-05-01 09:00:00+00:00" |}.

Definition three_bytes : bytes := [Byte.x01; Byte.x02; Byte.x03].

(** Two empty containers, a and b. *)
Definition account_ab : MemAccount.Account := [("a", []); ("b", [])].

(** One container, c, holding the blobs abc, bcd and axy. *)
Definition account_c : MemAccount.Account :=
  [("c", [ ("abc", blob three_bytes [("owner", "ann")]);
           ("bcd", blob [] []);
           ("axy", blob [Byte.x0a] []) ])].

(** One container, c, holding nothing. *)
Definition account_empty_c : MemAccount.Account := [("c", [])].

Definition no_account : MemAccount.Account := [].

Definition empty_disk : MemFS.Disk := ∅.

(** A disk with a text file, an older download and a directory. *)
Definition disk_notes : MemFS.Disk :=
  <["docs/notes.txt" := MemFS.File three_bytes]>
    (<["out.bin" := MemFS.File [Byte.x07; Byte.x08]]>
       (<["docs" := MemFS.Directory]> ∅)).

Definition world (a : MemAccount.Account) (d : MemFS.Disk) : World MemAccount.Account MemFS.Disk :=
  mkWorld a d [].

(** The handle of container c and the compiled form of the pattern [^a]. *)
Definition container_c : ContainerClient := {| cc_container_name := "c" |}.
Definition starts_with_a : MiniRe.regex :=
  MiniRe.Seq MiniRe.Bol (MiniRe.Seq (MiniRe.Chr "a") MiniRe.Eps).

(** Double quotes turned into single ones, to show JSON text in a literal. *)
Fixpoint single_quoted (s : string) : string :=
  match s with
  | EmptyString => EmptyString
  | String c s' =>
      String (if Ascii.eqb c (ascii_of_nat 34) then "'"%char else c) (single_quoted s')
  end.

End Demo.

(** ** Start-up and entry point *)

(** The body of the [try] at module level: with no connection string, or an
    empty one, a warning is printed and the global stays [None]; otherwise
    [BlobServiceClient.from_connection_string] builds the client, or
    raises.  The second component is what is printed. *)
Definition connect {Client : Type} (AZURE_CONNECTION_STRING : option string)
    (from_connection_string : string -> result Client)
    : result (option Client * list string) :=
  if negb (truthy_opt AZURE_CONNECTION_STRING)
  then Return (None, ["Warning: AZURE_CONNECTION_STRING environment variable not found!"])
  else
    client ← from_connection_string (default "" AZURE_CONNECTION_STRING);
    Return (Some client, ["Successfully connected to Azure Blob Storage"]).

(** The module-level start-up, from [os.getenv] to the end of the
    [try]/[except]: the value of [blob_service_client] and the lines
    printed. *)
Definition startup {Client : Type} (AZURE_CONNECTION_STRING : option string)
    (from_connection_string : string -> result Client) : option Client * list string :=
  match connect AZURE_CONNECTION_STRING from_connection_string with
  | Return outcome => outcome
  | Raise e => (None, ["Error connecting to Azure Blob Storage: " +:+ str e])
  end.

(** [main()]: the lines printed around [mcp.run()], which returns or raises. *)
Definition main (mcp_run : result unit) : list string :=
  "Starting Azure Assistant MCP Server..."
  :: match mcp_run with
     | Return _ => []
     | Raise e => ["Failed to start MCP Server: " +:+ str e]
     end.

(** ** Vocabulary for the properties *)

(** What [file.write] means: the bytes are added to what the path holds. *)
Definition appending {Disk} (os : FileSystem Disk) : Prop :=
  forall p data d d' old,
    fs_write os p data d = (Return tt, d') ->
    fs_content os d p = Some old ->
    fs_content os d' p = Some (old ++ data).

(** The calls that change the storage account. *)
Definition is_mutation (ev : Event) : bool :=
  match ev with
  | SdkCreateContainer _ | SdkDeleteContainer _ | SdkDeleteBlob _
  | SdkUploadBlob _ _ _ _ _ => true
  | _ => false
  end.

(** The answer of [upload_blob] to an exception raised inside its [try]. *)
Definition upload_failure (container : string) (e : exn) : string :=
  match e with
  | ResourceNotFoundError _ => "Container '" +:+ container +:+ "' not found."
  | _ => "Error uploading file: " +:+ str e
  end.

(** The answer of [download_blob] to an exception raised inside its [try]. *)
Definition download_failure (container blob_name : string) (e : exn) : string :=
  match e with
  | ResourceNotFoundError _ =>
      "Blob '" +:+ blob_name +:+ "' not found in container '" +:+ container +:+ "'."
  | _ => "Error downloading blob: " +:+ str e
  end.

(** The answer of [delete_container], past the confirmation gate, to what
    the client's delete produced. *)
Definition delete_container_answer (container : string) (r : result unit) : string :=
  match r with
  | Return _ => "Container '" +:+ container +:+ "' deleted successfully."
  | Raise (ResourceNotFoundError _) => "Container '" +:+ container +:+ "' not found."
  | Raise e => "Error deleting container: " +:+ str e
  end.

(** The answer of [delete_blob], past the confirmation gate, to what the
    delete on the blob's handle produced. *)
Definition delete_blob_answer (container blob_name : string) (r : result unit) : string :=
  match r with
  | Return _ =>
      "Blob '" +:+ blob_name +:+ "' deleted successfully from container '" +:+ container
      +:+ "'."
  | Raise (ResourceNotFoundError _) =>
      "Blob '" +:+ blob_name +:+ "' not found in container '" +:+ container +:+ "'."
  | Raise e => "Error deleting blob: " +:+ str e
  end.

(** The answer of [upload_blob] to what the client's upload under [name]
    produced. *)
Definition upload_answer (container name : string) (r : result unit) : string :=
  match r with
  | Return _ => "File uploaded successfully to '" +:+ container +:+ "/" +:+ name +:+ "'"
  | Raise (ResourceNotFoundError _) => "Container '" +:+ container +:+ "' not found."
  | Raise e => "Error uploading file: " +:+ str e
  end.

(** Container c already holding a one-byte blob named notes.txt. *)
Definition account_with_notes : MemAccount.Account :=
  [("c", [("notes.txt", Demo.blob [Byte.x09] [("owner", "ann")])])].

(** The spellings of the affirmative token. *)
Definition yes_spellings : list string :=
  ["yes"; "yeS"; "yEs"; "yES"; "Yes"; "YeS"; "YEs"; "YES"].

(** ['/' in s]. *)
Fixpoint has_slash (s : string) : bool :=
  match s with
  | EmptyString => false
  | String c s' => Ascii.eqb c "/" || has_slash s'
  end.

(** * Properties of the tool-invocation boundary *)

Lemma eqb_yes_false (s : string) : s <> "yes" -> String.eqb s "yes" = false.
Proof. intros H. apply String.eqb_neq. exact H. Qed.

Lemma new_calls_app {Account Disk A} (m : M Account Disk A) (w : World Account Disk)
    (evs : list Event) :
  trace (snd (m w)) = trace w ++ evs -> new_calls m w = evs.
Proof. intros H. unfold new_calls. rewrite H. apply drop_app_length. Qed.

Lemma new_calls_unchanged {Account Disk A} (m : M Account Disk A) (w : World Account Disk) :
  snd (m w) = w -> new_calls m w = [].
Proof. intros H. apply new_calls_app. rewrite H. symmetry. apply app_nil_r. Qed.

Lemma metadata_or_empty_default (props : BlobProperties) :
  metadata_or_empty props = default [] (bp_metadata props).
Proof. unfold metadata_or_empty. destruct (bp_metadata props) as [[|kv rest]|]; reflexivity. Qed.

(** With a pattern that compiles, the comprehension of [search_blobs] is a
    filter. *)
Lemma comprehension_compiled {Regex} (re : ReModule Regex) (pattern : string) (rx : Regex)
    (names : list string) :
  re_compile re pattern = Return rx ->
  comprehension_if (re_search re pattern) names
  = Return (List.filter (regex_search re rx) names).
Proof.
  intros Hrx. induction names as [|name rest IH]; simpl.
  - reflexivity.
  - unfold re_search at 1. rewrite Hrx, IH. reflexivity.
Qed.

(** With a malformed pattern, the comprehension raises at its first element
    and returns the empty list when there is none. *)
Lemma comprehension_malformed {Regex} (re : ReModule Regex) (pattern : string) (e : exn)
    (names : list string) :
  re_compile re pattern = Raise e ->
  comprehension_if (re_search re pattern) names
  = match names with [] => Return [] | _ :: _ => Raise e end.
Proof.
  intros He. destruct names as [|name rest]; simpl.
  - reflexivity.
  - unfold re_search. rewrite He. reflexivity.
Qed.

(** Unfolds a handler down to the calls it makes. *)
Ltac unfold_tool :=
  unfold invoke, list_containers, list_blobs, get_blob_info, create_container,
    delete_container, upload_blob, download_blob, delete_blob, search_blobs,
    try_except, mbind, M_bind, mret, M_ret, sdk, io, lift_result;
  simpl.

(** Holds of a term that contains no case analysis of its own. *)
Ltac is_plain_call c :=
  lazymatch c with
  | context [match _ with _ => _ end] => fail
  | _ => idtac
  end.

(** Cases on the next call to a collaborator: it returns or it raises one of
    the three exception classes. *)
Ltac case_call :=
  match goal with
  | |- context [let (_, _) := ?c in _] =>
      is_plain_call c; destruct c as [[?|[?|?|?]] ?] eqn:?; simpl
  | |- context [match ?c with Return _ => _ | Raise _ => _ end] =>
      is_plain_call c; destruct c as [?|[?|?|?]] eqn:?; simpl
  | |- context [if ?c then _ else _] => is_plain_call c; destruct c eqn:?; simpl
  end.

(** ** What the mutating handlers do with the client *)

Section Runs.
Context {Account Downloader Disk : Type}.
Variable os : FileSystem Disk.
Variable guess_type : string -> option string.
Variable client : BlobServiceClient Account Downloader.

(** Past the gate, [delete_container] runs the client's delete on the
    account and answers by what it produced. *)
Lemma delete_container_run (container confirm : string) (w : World Account Disk) :
  lower confirm = "yes" ->
  delete_container (Some client) container confirm w
  = (Return (delete_container_answer container
               (fst (sdk_delete_container client container (account w)))),
     mkWorld (snd (sdk_delete_container client container (account w))) (disk w)
       (trace w ++ [SdkDeleteContainer container])).
Proof.
  intros Hyes. unfold_tool. rewrite Hyes. simpl.
  destruct (sdk_delete_container client container (account w)) as [[u|[m|m|m]] a'];
    reflexivity.
Qed.

(** Past the gate and with the blob's handle in hand, [delete_blob] runs the
    delete on the handle and answers by what it produced. *)
Lemma delete_blob_run (container blob_name confirm : string) (w : World Account Disk)
    (bc : BlobClient) (a1 : Account) :
  lower confirm = "yes" ->
  sdk_get_blob_client client container blob_name (account w) = (Return bc, a1) ->
  delete_blob (Some client) container blob_name confirm w
  = (Return (delete_blob_answer container blob_name (fst (sdk_delete_blob client bc a1))),
     mkWorld (snd (sdk_delete_blob client bc a1)) (disk w)
       (trace w ++ [SdkGetBlobClient container blob_name; SdkDeleteBlob bc])).
Proof.
  intros Hyes Hbc. unfold_tool. rewrite Hyes. simpl. rewrite Hbc. simpl.
  destruct (sdk_delete_blob client bc a1) as [[u|[m|m|m]] a2]; simpl;
    rewrite <- app_assoc; reflexivity.
Qed.

(** Without an affirmative token both delete handlers answer their prompt
    and leave the world alone. *)
Lemma delete_refused (container blob_name confirm : string) (w : World Account Disk) :
  lower confirm <> "yes" ->
  delete_container (Some client) container confirm w
  = (Return (confirm_container_prompt container), w)
  /\ delete_blob (Some client) container blob_name confirm w
     = (Return (confirm_blob_prompt blob_name), w).
Proof.
  intros Hno. apply String.eqb_neq in Hno.
  split; unfold_tool; rewrite Hno; reflexivity.
Qed.

(** With the local path present, the container's handle in hand and the file
    open, [upload_blob] runs the client's upload on the account, under the
    resolved name, with the overwrite flag set and the content type guessed
    from the local path, and answers by what it produced. *)
Lemma upload_blob_run (container local_file_path : string) (blob_name : option string)
    (w : World Account Disk) (cc : ContainerClient) (a1 : Account) (data : bytes) :
  fs_exists os local_file_path (disk w) = true ->
  sdk_get_container_client client container (account w) = (Return cc, a1) ->
  fs_open_rb os local_file_path (disk w) = Return data ->
  upload_blob os guess_type (Some client) container local_file_path blob_name w
  = (Return (upload_answer container (upload_name local_file_path blob_name)
               (fst (sdk_upload_blob client cc (upload_name local_file_path blob_name) data
                       true {| cs_content_type := guess_type local_file_path |} a1))),
     mkWorld
       (snd (sdk_upload_blob client cc (upload_name local_file_path blob_name) data true
               {| cs_content_type := guess_type local_file_path |} a1))
       (disk w)
       (trace w ++ [ OsPathExists local_file_path; SdkGetContainerClient container;
                     OpenRb local_file_path;
                     SdkUploadBlob cc (upload_name local_file_path blob_name) data true
                       {| cs_content_type := guess_type local_file_path |} ])).
Proof.
  intros Hexists Hcc Hopen. unfold_tool. rewrite Hexists; simpl.
  rewrite Hcc; simpl. rewrite Hopen; simpl.
  destruct (sdk_upload_blob client cc (upload_name local_file_path blob_name) data true
              {| cs_content_type := guess_type local_file_path |} a1)
    as [[u|[m|m|m]] a2]; simpl; rewrite <- !app_assoc; reflexivity.
Qed.

End Runs.

Section Boundary.
Context {Account Downloader Disk Regex : Type}.
Variable os : FileSystem Disk.
Variable re : ReModule Regex.
Variable guess_type : string -> option string.

#[local] Abbreviation World' := (World Account Disk).
#[local] Abbreviation Client := (BlobServiceClient Account Downloader).

(** C1. With no storage client, every tool call, whatever its arguments,
  answers the fixed "not initialized" message and leaves the world as it
  was: nothing is added to the log of calls, so neither the storage client
  nor the local filesystem is touched. *)
Theorem uninitialized_client_short_circuits (call : Invocation) (w : World') :
invoke os re guess_type (@None Client) call w
= (Return "Azure Blob Storage client is not initialized. Check your connection string.", w)
/\ new_calls (invoke os re guess_type (@None Client) call) w = [].
Proof.
assert (E : invoke os re guess_type (@None Client) call w = (Return NOT_INITIALIZED, w))
  by (destruct call; reflexivity).
split; [exact E |].
apply new_calls_unchanged. rewrite E. reflexivity.
Qed.

(** C4. Every tool call returns a string: whatever the storage client, the
  filesystem and the pattern compiler return or raise, and whether or not
  the client was initialized, no exception leaves a handler. *)
Theorem every_call_returns_text (client : option Client) (call : Invocation) (w : World') :
exists text : string, fst (invoke os re guess_type client call w) = Return text.
Proof.
destruct client as [client|]; [| destruct call; simpl; eauto].
destruct call; unfold_tool; repeat case_call; eauto.
Qed.

(** C2. [delete_container] and [delete_blob] act only on an affirmative
    token.  When the token (["no"] when left out) lower-cased is not ["yes"],
    both answer the confirmation prompt naming the target and leave the world
    as it was, so no call is made.  When it is ["yes"] in any case,
    [delete_container] calls the client's delete for that container: the
    account afterwards is the one that delete left and the answer goes by
    what it produced.  [delete_blob] asks the client for the blob's handle
    and calls its delete on the handle it gets, with the account and the
    answer again those of that delete. *)
Theorem deletes_need_confirmation (client : Client) (container blob_name : string)
    (confirm : option string) (w : World') :
  (lower (default "no" confirm) <> "yes" ->
     invoke os re guess_type (Some client) (DeleteContainer container confirm) w
     = (Return ("To delete container '" +:+ container +:+ "', set confirm parameter to 'yes'."), w)
     /\ invoke os re guess_type (Some client) (DeleteBlob container blob_name confirm) w
        = (Return ("To delete blob '" +:+ blob_name +:+ "', set confirm parameter to 'yes'."), w))
  /\ (lower (default "no" confirm) = "yes" ->
     new_calls (invoke os re guess_type (Some client) (DeleteContainer container confirm)) w
     = [SdkDeleteContainer container]
     /\ new_calls (invoke os re guess_type (Some client) (DeleteBlob container blob_name confirm)) w
        = SdkGetBlobClient container blob_name
          :: match fst (sdk_get_blob_client client container blob_name (account w)) with
             | Return blob_client => [SdkDeleteBlob blob_client]
             | Raise _ => []
             end
     /\ invoke os re guess_type (Some client) (DeleteContainer container confirm) w
        = (Return (delete_container_answer container
                     (fst (sdk_delete_container client container (account w)))),
           mkWorld (snd (sdk_delete_container client container (account w))) (disk w)
             (trace w ++ [SdkDeleteContainer container]))
     /\ (forall (blob_client : BlobClient) (a1 : Account),
           sdk_get_blob_client client container blob_name (account w)
           = (Return blob_client, a1) ->
           invoke os re guess_type (Some client) (DeleteBlob container blob_name confirm) w
           = (Return (delete_blob_answer container blob_name
                        (fst (sdk_delete_blob client blob_client a1))),
              mkWorld (snd (sdk_delete_blob client blob_client a1)) (disk w)
                (trace w ++ [SdkGetBlobClient container blob_name;
                             SdkDeleteBlob blob_client])))).
Proof.
  split.
  - intros Hno. apply eqb_yes_false in Hno.
    split; unfold_tool; rewrite Hno; reflexivity.
  - intros Hyes. split; [| split; [| split]].
    + apply new_calls_app. unfold_tool. rewrite Hyes; simpl.
      repeat case_call; rewrite <- ?app_assoc; reflexivity.
    + apply new_calls_app. unfold_tool. rewrite Hyes; simpl.
      repeat case_call; rewrite <- ?app_assoc; reflexivity.
    + exact (delete_container_run client container (default "no" confirm) w Hyes).
    + intros blob_client a1 Hbc.
      exact (delete_blob_run client container blob_name (default "no" confirm) w
               blob_client a1 Hyes Hbc).
Qed.

(** C5. When the local path does not exist, [upload_blob] answers the
    missing-file message naming the path, whatever the container and the
    target name.  The existence check is the only call it makes: the storage
    client is not called and the account is as it was. *)
Theorem upload_missing_file_skips_storage (client : Client)
    (container local_file_path : string) (blob_name : option string) (w : World') :
  fs_exists os local_file_path (disk w) = false ->
  upload_blob os guess_type (Some client) container local_file_path blob_name w
  = (Return ("Local file '" +:+ local_file_path +:+ "' not found."),
     mkWorld (account w) (disk w) (trace w ++ [OsPathExists local_file_path]))
  /\ new_calls (upload_blob os guess_type (Some client) container local_file_path blob_name) w
     = [OsPathExists local_file_path]
  /\ forallb is_sdk_call
       (new_calls (upload_blob os guess_type (Some client) container local_file_path blob_name) w)
     = false.
Proof.
  intros Hmissing.
  assert (E : upload_blob os guess_type (Some client) container local_file_path blob_name w
              = (Return (local_file_not_found local_file_path),
                 mkWorld (account w) (disk w) (trace w ++ [OsPathExists local_file_path])))
    by (unfold_tool; rewrite Hmissing; reflexivity).
  assert (C : new_calls (upload_blob os guess_type (Some client) container local_file_path
                           blob_name) w = [OsPathExists local_file_path])
    by (apply new_calls_app; rewrite E; reflexivity).
  split; [exact E |]. split; [exact C |]. rewrite C. reflexivity.
Qed.

(** C9. When the client lists the container names [names], [list_containers]
    answers the fixed "no containers" message for an empty listing, and
    otherwise the count followed by the names joined with a comma and a
    space; for the containers a and b that is "Found 2 containers: a, b". *)
Theorem list_containers_summary (client : Client) (w : World') (names : list string)
    (a' : Account) :
  sdk_list_containers client (account w) = (Return names, a') ->
  (names = [] ->
     fst (list_containers (Some client) w) = Return "No containers found in this storage account.")
  /\ (names <> [] ->
     fst (list_containers (Some client) w)
     = Return ("Found " +:+ str_nat (length names) +:+ " containers: " +:+ join ", " names))
  /\ (names = ["a"; "b"] ->
     fst (list_containers (Some client) w) = Return "Found 2 containers: a, b").
Proof.
  intros Hlist.
  assert (E : fst (list_containers (Some client) w)
              = Return (if nonempty names then found_containers names else NO_CONTAINERS))
    by (unfold_tool; rewrite Hlist; simpl; destruct names; reflexivity).
  rewrite E. repeat split.
  - intros ->. reflexivity.
  - intros Hne. destruct names; [contradiction | reflexivity].
  - intros ->. reflexivity.
Qed.

(** C3. When the client lists the same blob names for the container with an
    empty prefix and with none, and the pattern compiles, [list_blobs] with
    the empty prefix reports those names and [search_blobs] reports, in the
    same order, exactly those of them in which the pattern has a match
    somewhere. *)
Theorem search_is_filtered_listing (client : Client) (container pattern : string)
    (w : World') (cc : ContainerClient) (names : list string) (a1 a2 a3 : Account)
    (rx : Regex) :
  sdk_get_container_client client container (account w) = (Return cc, a1) ->
  sdk_list_blobs client cc (Some "") a1 = (Return names, a2) ->
  sdk_list_blobs client cc None a1 = (Return names, a3) ->
  re_compile re pattern = Return rx ->
  fst (list_blobs (Some client) container "" w) = Return (blobs_summary container "" names)
  /\ fst (search_blobs re (Some client) container pattern w)
     = Return (search_summary container pattern (List.filter (regex_search re rx) names))
  /\ (forall name : string,
        In name (List.filter (regex_search re rx) names)
        <-> In name names /\ regex_search re rx name = true).
Proof.
  intros Hcc Hlist Hall Hrx. split; [| split].
  - unfold_tool. rewrite Hcc; simpl. rewrite Hlist; reflexivity.
  - unfold_tool. rewrite Hcc; simpl. rewrite Hall; simpl.
    rewrite (comprehension_compiled re pattern rx names Hrx). reflexivity.
  - intros name. apply filter_In.
Qed.

(** C8, amended. With a malformed pattern, [search_blobs] answers the generic
    failure text carrying the compiler's message whenever the container's
    listing has at least one name.  With an empty listing the pattern is
    never compiled, and the answer is the no-match message. *)
Theorem malformed_pattern_needs_a_blob (client : Client) (container pattern : string)
    (w : World') (cc : ContainerClient) (names : list string) (a1 a2 : Account) (e : exn) :
  sdk_get_container_client client container (account w) = (Return cc, a1) ->
  sdk_list_blobs client cc None a1 = (Return names, a2) ->
  re_compile re pattern = Raise e ->
  (names <> [] ->
     fst (search_blobs re (Some client) container pattern w)
     = Return ("Error searching blobs: " +:+ str e))
  /\ (names = [] ->
     fst (search_blobs re (Some client) container pattern w)
     = Return ("No blobs matching pattern '" +:+ pattern +:+ "' found in " +:+ container +:+ ".")).
Proof.
  intros Hcc Hall He.
  assert (E : fst (search_blobs re (Some client) container pattern w)
              = match names with
                | [] => Return (search_summary container pattern [])
                | _ :: _ => Return (search_error (str e))
                end).
  { unfold_tool. rewrite Hcc; simpl. rewrite Hall; simpl.
    rewrite (comprehension_malformed re pattern e names He).
    destruct names; reflexivity. }
  rewrite E. split.
  - intros Hne. destruct names; [contradiction | reflexivity].
  - intros ->. reflexivity.
Qed.

(** C6. Once the client has handed out the blob's handle: when it returns
    the blob's properties, [get_blob_info] answers the indented JSON text of
    a snapshot whose [size_bytes] is the size the properties report and
    whose [metadata] is the key/value pairs they carry, the empty mapping
    when they carry none; when it raises the not-found error, the answer is
    the not-found message naming the blob and the container. *)
Theorem get_blob_info_snapshot (client : Client) (container blob_name : string)
    (w : World') (bc : BlobClient) (a1 : Account) :
  sdk_get_blob_client client container blob_name (account w) = (Return bc, a1) ->
  (forall (props : BlobProperties) (a2 : Account),
     sdk_get_blob_properties client bc a1 = (Return props, a2) ->
     fst (get_blob_info (Some client) container blob_name w)
     = Return (json_dumps_indent2 (blob_info blob_name props))
     /\ json_field "size_bytes" (blob_info blob_name props) = Some (JInt (bp_size props))
     /\ json_field "metadata" (blob_info blob_name props)
        = Some (json_dict (default [] (bp_metadata props)))
     /\ (bp_metadata props = None ->
         json_field "metadata" (blob_info blob_name props) = Some (JObject [])))
  /\ (forall (msg : string) (a2 : Account),
     sdk_get_blob_properties client bc a1 = (Raise (ResourceNotFoundError msg), a2) ->
     fst (get_blob_info (Some client) container blob_name w)
     = Return ("Blob '" +:+ blob_name +:+ "' not found in container '" +:+ container +:+ "'.")).
Proof.
  intros Hbc. split.
  - intros props a2 Hprops. repeat split.
    + unfold_tool. rewrite Hbc; simpl. rewrite Hprops; reflexivity.
    + simpl. rewrite metadata_or_empty_default. reflexivity.
    + simpl. rewrite metadata_or_empty_default. intros ->. reflexivity.
  - intros msg a2 Hmissing.
    unfold_tool. rewrite Hbc; simpl. rewrite Hmissing; reflexivity.
Qed.

(** C7. For an existing local path and no target name (left out or empty):
    every upload [upload_blob] makes is under the base name of the local
    path, with the overwrite flag set and with the content type guessed from
    the local path; and it does make that upload, with the bytes of the
    file, once the client hands out the container's handle and the file
    opens: the account afterwards is the one the client's upload under the
    base name, with overwrite set and that content type, left, and the
    answer goes by what that upload produced.  When the upload returns, the
    answer names the container and the base name. *)
Theorem upload_defaults (client : Client) (container local_file_path : string)
    (blob_name : option string) (w : World') :
  fs_exists os local_file_path (disk w) = true ->
  truthy_opt blob_name = false ->
  (forall ev : Event,
     In ev (new_calls (upload_blob os guess_type (Some client) container local_file_path
                         blob_name) w) ->
     is_upload ev = true ->
     exists (cc : ContainerClient) (data : bytes),
       ev = SdkUploadBlob cc (basename local_file_path) data true
              {| cs_content_type := guess_type local_file_path |})
  /\ (forall (cc : ContainerClient) (a1 : Account) (data : bytes),
     sdk_get_container_client client container (account w) = (Return cc, a1) ->
     fs_open_rb os local_file_path (disk w) = Return data ->
     new_calls (upload_blob os guess_type (Some client) container local_file_path blob_name) w
     = [ OsPathExists local_file_path; SdkGetContainerClient container;
         OpenRb local_file_path;
         SdkUploadBlob cc (basename local_file_path) data true
           {| cs_content_type := guess_type local_file_path |} ]
     /\ upload_blob os guess_type (Some client) container local_file_path blob_name w
        = (Return (upload_answer container (basename local_file_path)
                     (fst (sdk_upload_blob client cc (basename local_file_path) data true
                             {| cs_content_type := guess_type local_file_path |} a1))),
           mkWorld
             (snd (sdk_upload_blob client cc (basename local_file_path) data true
                     {| cs_content_type := guess_type local_file_path |} a1))
             (disk w)
             (trace w ++ [ OsPathExists local_file_path; SdkGetContainerClient container;
                           OpenRb local_file_path;
                           SdkUploadBlob cc (basename local_file_path) data true
                             {| cs_content_type := guess_type local_file_path |} ]))
     /\ (forall a2 : Account,
           sdk_upload_blob client cc (basename local_file_path) data true
             {| cs_content_type := guess_type local_file_path |} a1 = (Return tt, a2) ->
           fst (upload_blob os guess_type (Some client) container local_file_path blob_name w)
           = Return ("File uploaded successfully to '" +:+ container +:+ "/"
                     +:+ basename local_file_path +:+ "'")
           /\ account (snd (upload_blob os guess_type (Some client) container
                              local_file_path blob_name w)) = a2)).
Proof.
  intros Hexists Hname.
  assert (Hn : upload_name local_file_path blob_name = basename local_file_path)
    by (unfold upload_name; rewrite Hname; reflexivity).
  split.
  - intros ev Hin Hup. revert Hin.
    unfold new_calls. unfold_tool. rewrite Hexists, Hn; simpl.
    repeat case_call; rewrite <- ?app_assoc, drop_app_length; simpl;
      intros Hin; intuition (subst; try discriminate; eauto).
  - intros cc a1 data Hcc Hopen.
    assert (Hrun := upload_blob_run os guess_type client container local_file_path
                      blob_name w cc a1 data Hexists Hcc Hopen).
    rewrite Hn in Hrun.
    split; [| split].
    + apply new_calls_app. rewrite Hrun. reflexivity.
    + exact Hrun.
    + intros a2 Hup. rewrite Hrun, Hup. split; reflexivity.
Qed.

(** C10, amended. [download_blob] opens the destination for writing before
    it fetches the blob.  So once the client has handed out the blob's
    handle: when the destination opens and the fetch raises the not-found
    error, the answer is the not-found message, the calls made are the
    handle, the open and the fetch in that order, nothing is written, and
    the disk is left as the open made it, with the destination holding no
    bytes.  When the open raises instead, the blob is never fetched and
    nothing is written: the calls made are the handle and the open, the
    account is as the handle call left it, the disk as the failed open left
    it, and the answer is the failure text of the exception raised, the
    generic one for an error of the filesystem. *)
Theorem download_missing_blob_truncates (client : Client) (container blob_name : string)
    (local_file_path : option string) (w : World') (bc : BlobClient) (a1 : Account) :
  truncating os ->
  sdk_get_blob_client client container blob_name (account w) = (Return bc, a1) ->
  (forall (d1 : Disk) (msg : string) (a2 : Account),
     fs_open_wb os (download_destination blob_name local_file_path) (disk w)
     = (Return tt, d1) ->
     sdk_download_blob client bc a1 = (Raise (ResourceNotFoundError msg), a2) ->
     fst (download_blob os (Some client) container blob_name local_file_path w)
     = Return ("Blob '" +:+ blob_name +:+ "' not found in container '" +:+ container +:+ "'.")
     /\ new_calls (download_blob os (Some client) container blob_name local_file_path) w
        = [ SdkGetBlobClient container blob_name;
            OpenWb (download_destination blob_name local_file_path);
            SdkDownloadBlob bc ]
     /\ disk (snd (download_blob os (Some client) container blob_name local_file_path w)) = d1
     /\ fs_content os
          (disk (snd (download_blob os (Some client) container blob_name local_file_path w)))
          (download_destination blob_name local_file_path) = Some [])
  /\ (forall (e : exn) (d1 : Disk),
        fs_open_wb os (download_destination blob_name local_file_path) (disk w)
        = (Raise e, d1) ->
        download_blob os (Some client) container blob_name local_file_path w
        = (Return (download_failure container blob_name e),
           mkWorld a1 d1
             (trace w ++ [ SdkGetBlobClient container blob_name;
                           OpenWb (download_destination blob_name local_file_path) ]))
        /\ new_calls (download_blob os (Some client) container blob_name local_file_path) w
           = [ SdkGetBlobClient container blob_name;
               OpenWb (download_destination blob_name local_file_path) ]
        /\ (forall text : string,
              e = Exception text ->
              fst (download_blob os (Some client) container blob_name local_file_path w)
              = Return ("Error downloading blob: " +:+ text))).
Proof.
  intros Htrunc Hbc. split.
  - intros d1 msg a2 Hopen Hfetch.
    assert (E : download_blob os (Some client) container blob_name local_file_path w
                = (Return (blob_not_found blob_name container),
                   mkWorld a2 d1
                     (trace w ++ [ SdkGetBlobClient container blob_name;
                                   OpenWb (download_destination blob_name local_file_path);
                                   SdkDownloadBlob bc ]))).
    { unfold_tool. rewrite Hbc; simpl. rewrite Hopen; simpl. rewrite Hfetch; simpl.
      rewrite <- !app_assoc. reflexivity. }
    repeat split.
    + rewrite E. reflexivity.
    + apply new_calls_app. rewrite E. reflexivity.
    + rewrite E. reflexivity.
    + rewrite E. simpl. exact (Htrunc _ _ _ Hopen).
  - intros e d1 Hopen.
    assert (E : download_blob os (Some client) container blob_name local_file_path w
                = (Return (download_failure container blob_name e),
                   mkWorld a1 d1
                     (trace w ++ [ SdkGetBlobClient container blob_name;
                                   OpenWb (download_destination blob_name local_file_path) ]))).
    { unfold_tool. rewrite Hbc; simpl. rewrite Hopen; simpl.
      rewrite <- !app_assoc. destruct e; reflexivity. }
    split; [exact E |]. split.
    + apply new_calls_app. rewrite E. reflexivity.
    + intros text ->. rewrite E. reflexivity.
Qed.

End Boundary.


(** * The handlers run on the sample worlds *)

Example lower_yes : lower "YES" = "yes" /\ lower "Yes" = "yes" /\ lower "no" = "no".
Proof. repeat split. Qed.

Example basename_values :
  basename "docs/notes.txt" = "notes.txt" /\ basename "notes.txt" = "notes.txt"
  /\ basename "dir/" = "" /\ basename "/a/b/c" = "c".
Proof. repeat split. Qed.

Example caret_a_over_three_names :
  List.filter (MiniRe.search Demo.starts_with_a) ["abc"; "bcd"; "axy"] = ["abc"; "axy"]
  /\ MiniRe.compile "^a" = Return Demo.starts_with_a.
Proof. split; reflexivity. Qed.

(** A search is not a full match: [b] is found inside abc. *)
Example search_is_not_fullmatch :
  re_search MiniRe.re "b" "abc" = Return true /\ re_search MiniRe.re "^b" "abc" = Return false.
Proof. split; reflexivity. Qed.

Example malformed_patterns :
  MiniRe.compile "*a" = Raise (Exception "nothing to repeat at position 0")
  /\ MiniRe.compile "a)" = Raise (Exception "unbalanced parenthesis at position 1")
  /\ MiniRe.compile "a**" = Raise (Exception "multiple repeat at position 2").
Proof. repeat split. Qed.

(** The text [get_blob_info] answers for the blob abc, its double quotes
    shown as single ones. *)
Example get_blob_info_text :
  match fst (get_blob_info (Some MemAccount.client) "c" "abc"
               (Demo.world Demo.account_c Demo.empty_disk)) with
  | Return text => Demo.single_quoted text
  | Raise _ => ""
  end
  = "{
  'name': 'abc',
  'size_bytes': 3,
  'content_type': 'application/octet-stream',
  'last_modified': '2024-05-02 10:30:00+00:00',
  'creation_time': '2024-05-01 09:00:00+00:00',
  'lease_status': 'unlocked',
  'metadata': {
    'owner': 'ann'
  }
}".
Proof. reflexivity. Qed.

(** A blob without metadata gets the empty mapping. *)
Example get_blob_info_no_metadata :
  json_field "metadata" (blob_info "bcd" (MemAccount.properties_of (Demo.blob [] [])))
  = Some (JObject [])
  /\ json_dumps_indent2 (JObject [("metadata", JObject [])])
     = "{" +:+ newline +:+ "  " +:+ quote +:+ "metadata" +:+ quote +:+ ": {}" +:+ newline +:+ "}".
Proof. split; reflexivity. Qed.

(** An upload then a download gives back the bytes of the file. *)
Example upload_then_download :
  let w1 := snd (upload_blob MemFS.os Demo.guess_type (Some MemAccount.client) "c"
                   "docs/notes.txt" (Some "f") (Demo.world Demo.account_c Demo.disk_notes)) in
  let w2 := snd (download_blob MemFS.os (Some MemAccount.client) "c" "f" (Some "copy.txt")
                   w1) in
  fs_content MemFS.os (disk w2) "copy.txt" = fs_content MemFS.os Demo.disk_notes "docs/notes.txt".
Proof. reflexivity. Qed.

Lemma MemFS_truncating : truncating MemFS.os.
Proof.
  intros p d d'. simpl. unfold MemFS.open_wb, MemFS.content.
  destruct (truthy p); simpl; [| discriminate].
  destruct (d !! p) as [[content|]|]; intros [= <-]; rewrite lookup_insert_eq; reflexivity.
Qed.

(** The default token gets the prompt and no call.  [YES] has container a
    deleted from the account, and [Yes] has blob abc deleted from container
    c. *)
Lemma deletes_need_confirmation_witness :
  invoke MemFS.os MiniRe.re Demo.guess_type (Some MemAccount.client)
    (DeleteContainer "x" None) (Demo.world Demo.account_ab Demo.empty_disk)
  = (Return "To delete container 'x', set confirm parameter to 'yes'.",
     Demo.world Demo.account_ab Demo.empty_disk)
  /\ new_calls (invoke MemFS.os MiniRe.re Demo.guess_type (Some MemAccount.client)
                  (DeleteContainer "a" (Some "YES")))
       (Demo.world Demo.account_ab Demo.empty_disk)
     = [SdkDeleteContainer "a"]
  /\ invoke MemFS.os MiniRe.re Demo.guess_type (Some MemAccount.client)
       (DeleteContainer "a" (Some "YES")) (Demo.world Demo.account_ab Demo.empty_disk)
     = (Return "Container 'a' deleted successfully.",
        mkWorld [("b", [])] Demo.empty_disk [SdkDeleteContainer "a"])
  /\ invoke MemFS.os MiniRe.re Demo.guess_type (Some MemAccount.client)
       (DeleteBlob "c" "abc" (Some "Yes")) (Demo.world Demo.account_c Demo.empty_disk)
     = (Return "Blob 'abc' deleted successfully from container 'c'.",
        mkWorld [("c", [("bcd", Demo.blob [] []); ("axy", Demo.blob [Byte.x0a] [])])]
          Demo.empty_disk
          [ SdkGetBlobClient "c" "abc";
            SdkDeleteBlob {| bc_container_name := "c"; bc_blob_name := "abc" |} ]).
Proof.
  split; [| split; [| split]].
  - apply (proj1 (deletes_need_confirmation MemFS.os MiniRe.re Demo.guess_type
                    MemAccount.client "x" "b" None
                    (Demo.world Demo.account_ab Demo.empty_disk))).
    simpl. discriminate.
  - apply (proj2 (deletes_need_confirmation MemFS.os MiniRe.re Demo.guess_type
                    MemAccount.client "a" "b" (Some "YES")
                    (Demo.world Demo.account_ab Demo.empty_disk))).
    reflexivity.
  - apply (proj2 (deletes_need_confirmation MemFS.os MiniRe.re Demo.guess_type
                    MemAccount.client "a" "b" (Some "YES")
                    (Demo.world Demo.account_ab Demo.empty_disk)) eq_refl).
  - apply (proj2 (proj2 (proj2 (proj2 (deletes_need_confirmation MemFS.os MiniRe.re
                                         Demo.guess_type MemAccount.client "c" "abc"
                                         (Some "Yes")
                                         (Demo.world Demo.account_c Demo.empty_disk))
                                  eq_refl)))
             {| bc_container_name := "c"; bc_blob_name := "abc" |} Demo.account_c eq_refl).
Defined.

(** The example of the specification: [^a] over abc, bcd and axy. *)
Lemma search_is_filtered_listing_witness :
  fst (list_blobs (Some MemAccount.client) "c" ""
         (Demo.world Demo.account_c Demo.empty_disk))
  = Return "Found 3 blobs in c: abc, bcd, axy"
  /\ fst (search_blobs MiniRe.re (Some MemAccount.client) "c" "^a"
            (Demo.world Demo.account_c Demo.empty_disk))
     = Return "Found 2 matching blobs in c: abc, axy".
Proof.
  destruct (search_is_filtered_listing MiniRe.re MemAccount.client "c" "^a"
              (Demo.world Demo.account_c Demo.empty_disk) Demo.container_c
              ["abc"; "bcd"; "axy"] Demo.account_c Demo.account_c Demo.account_c
              Demo.starts_with_a eq_refl eq_refl eq_refl eq_refl) as (Hlist & Hsearch & _).
  split; [exact Hlist | exact Hsearch].
Defined.

Lemma upload_missing_file_skips_storage_witness :
  upload_blob MemFS.os Demo.guess_type (Some MemAccount.client) "c" "missing.txt" None
    (Demo.world Demo.account_c Demo.disk_notes)
  = (Return "Local file 'missing.txt' not found.",
     mkWorld Demo.account_c Demo.disk_notes [OsPathExists "missing.txt"]).
Proof.
  apply (upload_missing_file_skips_storage MemFS.os Demo.guess_type MemAccount.client
           "c" "missing.txt" None (Demo.world Demo.account_c Demo.disk_notes)).
  reflexivity.
Defined.

(** The blob abc of three bytes with one pair of metadata, and the blob bcd
    with none. *)
Lemma get_blob_info_snapshot_witness :
  fst (get_blob_info (Some MemAccount.client) "c" "abc"
         (Demo.world Demo.account_c Demo.empty_disk))
  = Return (json_dumps_indent2
              (JObject [ ("name", JString "abc");
                         ("size_bytes", JInt 3);
                         ("content_type", JString "application/octet-stream");
                         ("last_modified", JString "2024-05-02 10:30:00+00:00");
                         ("creation_time", JString "2024-05-01 09:00:00+00:00");
                         ("lease_status", JString "unlocked");
                         ("metadata", JObject [("owner", JString "ann")]) ]))
  /\ fst (get_blob_info (Some MemAccount.client) "c" "nope"
            (Demo.world Demo.account_c Demo.empty_disk))
     = Return "Blob 'nope' not found in container 'c'.".
Proof.
  split.
  - apply (proj1 (get_blob_info_snapshot MemAccount.client "c" "abc"
                    (Demo.world Demo.account_c Demo.empty_disk)
                    {| bc_container_name := "c"; bc_blob_name := "abc" |}
                    Demo.account_c eq_refl)
             (MemAccount.properties_of (Demo.blob Demo.three_bytes [("owner", "ann")]))
             Demo.account_c eq_refl).
  - apply (proj2 (get_blob_info_snapshot MemAccount.client "c" "nope"
                    (Demo.world Demo.account_c Demo.empty_disk)
                    {| bc_container_name := "c"; bc_blob_name := "nope" |}
                    Demo.account_c eq_refl)
             "The specified blob does not exist." Demo.account_c eq_refl).
Defined.

Lemma upload_defaults_witness :
  new_calls (upload_blob MemFS.os Demo.guess_type (Some MemAccount.client) "c"
               "docs/notes.txt" None)
    (Demo.world Demo.account_c Demo.disk_notes)
  = [ OsPathExists "docs/notes.txt"; SdkGetContainerClient "c"; OpenRb "docs/notes.txt";
      SdkUploadBlob Demo.container_c "notes.txt" Demo.three_bytes true
        {| cs_content_type := Some "text/plain" |} ]
  /\ upload_blob MemFS.os Demo.guess_type (Some MemAccount.client) "c" "docs/notes.txt"
       (Some "") (Demo.world account_with_notes Demo.disk_notes)
     = (Return "File uploaded successfully to 'c/notes.txt'",
        mkWorld
          [("c", [("notes.txt",
                   MemAccount.new_blob Demo.three_bytes
                     {| cs_content_type := Some "text/plain" |})])]
          Demo.disk_notes
          [ OsPathExists "docs/notes.txt"; SdkGetContainerClient "c"; OpenRb "docs/notes.txt";
            SdkUploadBlob Demo.container_c "notes.txt" Demo.three_bytes true
              {| cs_content_type := Some "text/plain" |} ]).
Proof.
  split.
  - apply (proj2 (upload_defaults MemFS.os Demo.guess_type MemAccount.client "c"
                    "docs/notes.txt" None (Demo.world Demo.account_c Demo.disk_notes)
                    eq_refl eq_refl)
             Demo.container_c Demo.account_c Demo.three_bytes eq_refl eq_refl).
  - apply (proj2 (upload_defaults MemFS.os Demo.guess_type MemAccount.client "c"
                    "docs/notes.txt" (Some "") (Demo.world account_with_notes Demo.disk_notes)
                    eq_refl eq_refl)
             Demo.container_c account_with_notes Demo.three_bytes eq_refl eq_refl).
Defined.

(** C8 as stated fails on an empty container: the unbalanced pattern is
    never compiled, and the answer is the no-match message, not the failure
    text. *)
Lemma malformed_pattern_on_empty_container :
  re_compile MiniRe.re "("
  = Raise (Exception "missing ), unterminated subpattern at position 0")
  /\ fst (search_blobs MiniRe.re (Some MemAccount.client) "c" "("
            (Demo.world Demo.account_empty_c Demo.empty_disk))
     = Return "No blobs matching pattern '(' found in c."
  /\ ~ (exists msg : string,
          fst (search_blobs MiniRe.re (Some MemAccount.client) "c" "("
                 (Demo.world Demo.account_empty_c Demo.empty_disk))
          = Return (search_error msg)).
Proof.
  split; [reflexivity |]. split; [reflexivity |].
  intros [msg H]. vm_compute in H. discriminate H.
Qed.

Lemma malformed_pattern_needs_a_blob_witness :
  fst (search_blobs MiniRe.re (Some MemAccount.client) "c" "("
         (Demo.world Demo.account_c Demo.empty_disk))
  = Return "Error searching blobs: missing ), unterminated subpattern at position 0".
Proof.
  apply (proj1 (malformed_pattern_needs_a_blob MiniRe.re MemAccount.client "c" "("
                  (Demo.world Demo.account_c Demo.empty_disk) Demo.container_c
                  ["abc"; "bcd"; "axy"] Demo.account_c Demo.account_c
                  (Exception "missing ), unterminated subpattern at position 0")
                  eq_refl eq_refl eq_refl)).
  discriminate.
Defined.

Lemma list_containers_summary_witness :
  fst (list_containers (Some MemAccount.client) (Demo.world Demo.account_ab Demo.empty_disk))
  = Return "Found 2 containers: a, b"
  /\ fst (list_containers (Some MemAccount.client)
            (Demo.world Demo.no_account Demo.empty_disk))
     = Return "No containers found in this storage account.".
Proof.
  split.
  - apply (proj2 (proj2 (list_containers_summary MemAccount.client
                           (Demo.world Demo.account_ab Demo.empty_disk) ["a"; "b"]
                           Demo.account_ab eq_refl))).
    reflexivity.
  - apply (proj1 (list_containers_summary MemAccount.client
                    (Demo.world Demo.no_account Demo.empty_disk) []
                    Demo.no_account eq_refl)).
    reflexivity.
Defined.

(** C10 as stated fails where the destination cannot be opened: for the
    missing blob [dir/] and no local path the destination is the empty path,
    the open raises, and the answer is the generic failure text; no file is
    made and the blob is never fetched. *)
Lemma download_missing_blob_unopenable_destination :
  fst (sdk_download_blob MemAccount.client
         {| bc_container_name := "c"; bc_blob_name := "dir/" |} Demo.account_c)
  = Raise (ResourceNotFoundError "The specified blob does not exist.")
  /\ download_blob MemFS.os (Some MemAccount.client) "c" "dir/" None
       (Demo.world Demo.account_c Demo.empty_disk)
     = (Return "Error downloading blob: [Errno 2] No such file or directory: ''",
        mkWorld Demo.account_c Demo.empty_disk [SdkGetBlobClient "c" "dir/"; OpenWb ""])
  /\ fst (download_blob MemFS.os (Some MemAccount.client) "c" "dir/" None
            (Demo.world Demo.account_c Demo.empty_disk))
     <> Return (blob_not_found "dir/" "c")
  /\ fs_content MemFS.os
       (disk (snd (download_blob MemFS.os (Some MemAccount.client) "c" "dir/" None
                     (Demo.world Demo.account_c Demo.empty_disk))))
       (download_destination "dir/" None) = None.
Proof.
  split; [reflexivity |]. split; [reflexivity |]. split; [| reflexivity].
  intros H. vm_compute in H. discriminate H.
Qed.

(** The older download [out.bin] of two bytes is emptied by a download of a
    blob that does not exist; and with the empty path as destination the
    open fails and the blob is not fetched. *)
Lemma download_missing_blob_truncates_witness :
  fs_content MemFS.os Demo.disk_notes "out.bin" = Some [Byte.x07; Byte.x08]
  /\ fst (download_blob MemFS.os (Some MemAccount.client) "c" "ghost" (Some "out.bin")
            (Demo.world Demo.account_c Demo.disk_notes))
     = Return "Blob 'ghost' not found in container 'c'."
  /\ fs_content MemFS.os
       (disk (snd (download_blob MemFS.os (Some MemAccount.client) "c" "ghost"
                     (Some "out.bin") (Demo.world Demo.account_c Demo.disk_notes))))
       "out.bin" = Some []
  /\ download_blob MemFS.os (Some MemAccount.client) "c" "dir/" None
       (Demo.world Demo.account_c Demo.disk_notes)
     = (Return "Error downloading blob: [Errno 2] No such file or directory: ''",
        mkWorld Demo.account_c Demo.disk_notes [SdkGetBlobClient "c" "dir/"; OpenWb ""]).
Proof.
  split; [reflexivity |].
  destruct (proj1 (download_missing_blob_truncates MemFS.os MemAccount.client "c" "ghost"
                     (Some "out.bin") (Demo.world Demo.account_c Demo.disk_notes)
                     {| bc_container_name := "c"; bc_blob_name := "ghost" |}
                     Demo.account_c MemFS_truncating eq_refl)
              (<["out.bin" := MemFS.File []]> Demo.disk_notes)
              "The specified blob does not exist." Demo.account_c eq_refl eq_refl)
    as (Hanswer & _ & _ & Hempty).
  split; [exact Hanswer |]. split; [exact Hempty |].
  apply (proj2 (download_missing_blob_truncates MemFS.os MemAccount.client "c" "dir/"
                  None (Demo.world Demo.account_c Demo.disk_notes)
                  {| bc_container_name := "c"; bc_blob_name := "dir/" |}
                  Demo.account_c MemFS_truncating eq_refl)
           (MemFS.enoent "") Demo.disk_notes eq_refl).
Defined.

(** * Further properties of the handlers *)

Lemma append_cancel (p x y : string) : p +:+ x = p +:+ y -> x = y.
Proof.
  induction p as [|c p IH]; simpl; intros H.
  - exact H.
  - injection H as H. exact (IH H).
Qed.

Lemma Return_inj {A} (x y : A) : Return x = Return y -> x = y.
Proof. intros H. injection H as H. exact H. Qed.

(** Refutes an equation between two answers that differ after a common
    beginning. *)
Ltac text_differs H :=
  apply Return_inj in H; repeat apply append_cancel in H; discriminate H.

Lemma append_cons (c : ascii) (s t : string) : String c s +:+ t = String c (s +:+ t).
Proof. reflexivity. Qed.

Lemma lower_char_y (c : ascii) : lower_char c = "y"%char -> c = "y"%char \/ c = "Y"%char.
Proof.
  destruct c as [[] [] [] [] [] [] [] []]; vm_compute; intros H;
    first [discriminate H | auto].
Qed.

Lemma lower_char_e (c : ascii) : lower_char c = "e"%char -> c = "e"%char \/ c = "E"%char.
Proof.
  destruct c as [[] [] [] [] [] [] [] []]; vm_compute; intros H;
    first [discriminate H | auto].
Qed.

Lemma lower_char_s (c : ascii) : lower_char c = "s"%char -> c = "s"%char \/ c = "S"%char.
Proof.
  destruct c as [[] [] [] [] [] [] [] []]; vm_compute; intros H;
    first [discriminate H | auto].
Qed.

Lemma lower_yes_spellings (token : string) : lower token = "yes" <-> In token yes_spellings.
Proof.
  split.
  - destruct token as [|c1 [|c2 [|c3 [|c4 rest]]]]; simpl; intros H; try discriminate H.
    injection H as H1 H2 H3.
    apply lower_char_y in H1. apply lower_char_e in H2. apply lower_char_s in H3.
    destruct H1, H2, H3; subst; tauto.
  - intros H. unfold yes_spellings in H. simpl in H.
    repeat (destruct H as [H|H]; [subst; reflexivity |]). contradiction.
Qed.

Lemma has_slash_app (s t : string) : has_slash (s +:+ t) = has_slash s || has_slash t.
Proof.
  induction s as [|c s IH].
  - reflexivity.
  - rewrite append_cons. simpl. rewrite IH. apply orb_assoc.
Qed.

Lemma basename_from_no_slash (acc p : string) :
  has_slash acc = false -> has_slash (basename_from acc p) = false.
Proof.
  revert acc. induction p as [|c p IH]; simpl; intros acc Hacc.
  - exact Hacc.
  - destruct (Ascii.eqb c "/") eqn:Hc.
    + apply IH. reflexivity.
    + apply IH. rewrite has_slash_app, Hacc. simpl. rewrite Hc. reflexivity.
Qed.

Lemma append_empty_r (s : string) : s +:+ "" = s.
Proof. induction s as [|c s IH]; [reflexivity | rewrite append_cons, IH; reflexivity]. Qed.

Lemma append_assoc_r (s t u : string) : (s +:+ t) +:+ u = s +:+ t +:+ u.
Proof. induction s as [|c s IH]; [reflexivity | rewrite !append_cons, IH; reflexivity]. Qed.

Lemma basename_from_plain (acc f : string) :
  has_slash f = false -> basename_from acc f = acc +:+ f.
Proof.
  revert acc. induction f as [|c f IH]; simpl; intros acc Hf.
  - symmetry. apply append_empty_r.
  - apply orb_false_iff in Hf as [Hc Hf]. rewrite Hc, (IH _ Hf).
    apply append_assoc_r.
Qed.

Lemma basename_from_restart (acc acc' dir f : string) :
  basename_from acc (dir +:+ "/" +:+ f) = basename_from acc' (dir +:+ "/" +:+ f).
Proof.
  revert acc acc'. induction dir as [|c dir IH]; intros acc acc'.
  - reflexivity.
  - rewrite append_cons. simpl. destruct (Ascii.eqb c "/"); apply IH.
Qed.

(** Turns the log of a run into the list of the calls it added. *)
Ltac settle_calls := rewrite <- ?app_assoc, ?drop_app_length, ?app_nil_r, ?drop_all; simpl.

(** X1. The start-up leaves the client unset exactly when the connection
    string is missing or empty, or building the client raises, and prints
    one line: the warning for a missing or empty string, the success line
    when the client is built, and, the exception being caught, the error
    line carrying its message when building raises. *)
Theorem startup_client_absent {Client : Type} (connection_string : option string)
    (from_connection_string : string -> result Client) :
  (fst (startup connection_string from_connection_string) = None
   <-> connection_string = None \/ connection_string = Some ""
       \/ exists (s : string) (e : exn),
            connection_string = Some s /\ from_connection_string s = Raise e)
  /\ length (snd (startup connection_string from_connection_string)) = 1
  /\ (truthy_opt connection_string = false ->
      startup connection_string from_connection_string
      = (None, ["Warning: AZURE_CONNECTION_STRING environment variable not found!"]))
  /\ (forall (s : string) (client : Client),
        connection_string = Some s -> s <> "" ->
        from_connection_string s = Return client ->
        startup connection_string from_connection_string
        = (Some client, ["Successfully connected to Azure Blob Storage"]))
  /\ (forall (s : string) (e : exn),
        connection_string = Some s -> s <> "" ->
        from_connection_string s = Raise e ->
        startup connection_string from_connection_string
        = (None, ["Error connecting to Azure Blob Storage: " +:+ str e])).
Proof.
  split; [| split; [| split; [| split]]].
  - unfold startup, connect.
    destruct connection_string as [[|c s]|]; simpl.
    + split; auto.
    + destruct (from_connection_string (String c s)) as [client|e] eqn:Hc; simpl.
      * split; [discriminate |].
        intros [H|[H|(s' & e & H & He)]]; try discriminate H.
        injection H as <-. rewrite Hc in He. discriminate He.
      * split; [| reflexivity].
        intros _. right. right. exists (String c s), e. split; [reflexivity | exact Hc].
    + split; auto.
  - unfold startup, connect.
    destruct connection_string as [[|c s]|]; simpl; try reflexivity.
    destruct (from_connection_string (String c s)); reflexivity.
  - intros Hmissing. unfold startup, connect. rewrite Hmissing. reflexivity.
  - intros s client -> Hs Hbuilt. unfold startup, connect.
    destruct s as [|c s]; [contradiction |]. simpl. rewrite Hbuilt. reflexivity.
  - intros s e -> Hs Hraised. unfold startup, connect.
    destruct s as [|c s]; [contradiction |]. simpl. rewrite Hraised. reflexivity.
Qed.

Section More.
Context {Account Downloader Disk Regex : Type}.
Variable os : FileSystem Disk.
Variable re : ReModule Regex.
Variable guess_type : string -> option string.

#[local] Abbreviation World'' := (World Account Disk).
#[local] Abbreviation Client' := (BlobServiceClient Account Downloader).

(** X2. When no connection string is set, or it is empty, the server starts
    all the same and every tool call answers the "not initialized" message
    without calling the storage client or the filesystem. *)
Theorem missing_connection_string_disables_tools (connection_string : option string)
    (from_connection_string : string -> result Client')
    (call : Invocation) (w : World'') :
  truthy_opt connection_string = false ->
  invoke os re guess_type (fst (startup connection_string from_connection_string)) call w
  = (Return NOT_INITIALIZED, w)
  /\ snd (startup connection_string from_connection_string)
     = ["Warning: AZURE_CONNECTION_STRING environment variable not found!"].
Proof.
  intros Hmissing. unfold startup, connect. rewrite Hmissing. simpl.
  split; [destruct call; reflexivity | reflexivity].
Qed.

(** X3. The "not initialized" message is answered only when the client is
    absent: with a client, no handler answers it, whatever the collaborators
    do. *)
Theorem not_initialized_only_without_client (client : option Client') (call : Invocation)
    (w : World'') :
  fst (invoke os re guess_type client call w) = Return NOT_INITIALIZED <-> client = None.
Proof.
  split.
  - destruct client as [client|]; [| reflexivity].
    intros H. exfalso. revert H.
    destruct call; unfold_tool;
      unfold blobs_summary, search_summary, found_containers, NO_CONTAINERS,
        confirm_container_prompt, confirm_blob_prompt, local_file_not_found,
        blob_not_found, container_not_found, search_error, NOT_INITIALIZED,
        json_dumps_indent2;
      repeat case_call; simpl; intros H; discriminate H.
  - intros ->. destruct call; reflexivity.
Qed.

(** X4. The delete handlers act on exactly eight tokens, the spellings of
    yes in lower and upper case.  On one of them [delete_container] runs the
    client's delete for the container, and [delete_blob] the delete on the
    handle the client hands out: the account afterwards is the one that
    delete left, and the answer goes by what it produced.  On any other
    token, surrounding blanks included, both answer the prompt and leave the
    world as it was. *)
Theorem delete_acts_on_eight_tokens (client : Client') (container blob_name confirm : string)
    (w : World'') :
  (In (SdkDeleteContainer container)
      (new_calls (delete_container (Some client) container confirm) w)
   <-> In confirm yes_spellings)
  /\ (new_calls (delete_blob (Some client) container blob_name confirm) w <> []
      <-> In confirm yes_spellings)
  /\ (In confirm yes_spellings ->
      delete_container (Some client) container confirm w
      = (Return (delete_container_answer container
                   (fst (sdk_delete_container client container (account w)))),
         mkWorld (snd (sdk_delete_container client container (account w))) (disk w)
           (trace w ++ [SdkDeleteContainer container]))
      /\ (forall (bc : BlobClient) (a1 : Account),
            sdk_get_blob_client client container blob_name (account w) = (Return bc, a1) ->
            delete_blob (Some client) container blob_name confirm w
            = (Return (delete_blob_answer container blob_name
                         (fst (sdk_delete_blob client bc a1))),
               mkWorld (snd (sdk_delete_blob client bc a1)) (disk w)
                 (trace w ++ [SdkGetBlobClient container blob_name; SdkDeleteBlob bc]))))
  /\ (~ In confirm yes_spellings ->
      delete_container (Some client) container confirm w
      = (Return ("To delete container '" +:+ container +:+ "', set confirm parameter to 'yes'."),
         w)
      /\ delete_blob (Some client) container blob_name confirm w
         = (Return ("To delete blob '" +:+ blob_name +:+ "', set confirm parameter to 'yes'."),
            w)).
Proof using Type.
  clear os re guess_type.
  rewrite <- !lower_yes_spellings.
  split; [| split; [| split]].
  - unfold new_calls. unfold_tool.
    destruct (String.eqb (lower confirm) "yes") eqn:Hyes; simpl.
    + apply String.eqb_eq in Hyes. repeat case_call; settle_calls; tauto.
    + apply String.eqb_neq in Hyes. settle_calls. tauto.
  - unfold new_calls. unfold_tool.
    destruct (String.eqb (lower confirm) "yes") eqn:Hyes; simpl.
    + apply String.eqb_eq in Hyes. repeat case_call; settle_calls;
        (split; [intros _; exact Hyes | intros _; discriminate]).
    + apply String.eqb_neq in Hyes. settle_calls. tauto.
  - intros Hyes. split.
    + exact (delete_container_run client container confirm w Hyes).
    + intros bc a1 Hbc.
      exact (delete_blob_run client container blob_name confirm w bc a1 Hyes Hbc).
  - intros Hno. exact (delete_refused client container blob_name confirm w Hno).
Qed.

(** X5. Only [download_blob] can change the local disk: after any other
    tool call, with or without a client, the disk is as it was. *)
Theorem only_download_changes_disk (client : option Client') (call : Invocation)
    (w : World'') :
  (forall container blob_name local_file_path,
     call <> DownloadBlob container blob_name local_file_path) ->
  disk (snd (invoke os re guess_type client call w)) = disk w.
Proof.
  intros Hcall.
  destruct client as [client|]; [| destruct call; reflexivity].
  destruct call; try (exfalso; eapply Hcall; reflexivity);
    unfold_tool; repeat case_call; reflexivity.
Qed.

(** X6. A call that changes the storage account is made only by the tool it
    belongs to, on the target it was given: a container is created only by
    [create_container]; deleted only by [delete_container], and only under
    an affirmative token; a blob is deleted only by [delete_blob], again
    only under an affirmative token; an upload is made only by
    [upload_blob], with the overwrite flag set.  The four reading tools and
    [download_blob] make no such call. *)
Theorem mutations_belong_to_their_tool (client : Client') (call : Invocation) (w : World'')
    (ev : Event) :
  In ev (new_calls (invoke os re guess_type (Some client) call) w) ->
  is_mutation ev = true ->
  match call, ev with
  | CreateContainer container, SdkCreateContainer created => created = container
  | DeleteContainer container confirm, SdkDeleteContainer deleted =>
      deleted = container /\ lower (default "no" confirm) = "yes"
  | DeleteBlob _ _ confirm, SdkDeleteBlob _ => lower (default "no" confirm) = "yes"
  | UploadBlob _ local_file_path blob_name, SdkUploadBlob _ name _ overwrite _ =>
      name = upload_name local_file_path blob_name /\ overwrite = true
  | _, _ => False
  end.
Proof.
  unfold new_calls.
  destruct call; unfold_tool; repeat case_call; settle_calls; rewrite ?drop_all; simpl;
    intros Hin Hmut;
    repeat (destruct Hin as [<-|Hin]; [try discriminate Hmut |]); try contradiction;
    repeat match goal with
           | H : String.eqb _ _ = true |- _ => apply String.eqb_eq in H
           | H : negb _ = false |- _ => apply negb_false_iff in H
           end; auto.
Qed.


(** X8. [list_blobs] hands the prefix to the client as the name filter and
    makes two calls, the handle and the listing.  A listing with names is
    answered with the count and the names joined by a comma and a space; an
    empty listing with "No blobs found", which quotes the prefix only when
    one was given. *)
Theorem list_blobs_summary (client : Client') (container prefix : string) (w : World'')
    (cc : ContainerClient) (names : list string) (a1 a2 : Account) :
  sdk_get_container_client client container (account w) = (Return cc, a1) ->
  sdk_list_blobs client cc (Some prefix) a1 = (Return names, a2) ->
  new_calls (list_blobs (Some client) container prefix) w
  = [SdkGetContainerClient container; SdkListBlobs cc (Some prefix)]
  /\ (names <> [] ->
      fst (list_blobs (Some client) container prefix w)
      = Return ("Found " +:+ str_nat (length names) +:+ " blobs in " +:+ container +:+ ": "
                +:+ join ", " names))
  /\ (names = [] -> prefix = "" ->
      fst (list_blobs (Some client) container prefix w)
      = Return ("No blobs found in " +:+ container +:+ "."))
  /\ (names = [] -> prefix <> "" ->
      fst (list_blobs (Some client) container prefix w)
      = Return ("No blobs found in " +:+ container +:+ " with prefix '" +:+ prefix +:+ "'")).
Proof.
  intros Hcc Hlist.
  assert (E : list_blobs (Some client) container prefix w
              = (Return (blobs_summary container prefix names),
                 mkWorld a2 (disk w)
                   (trace w ++ [SdkGetContainerClient container; SdkListBlobs cc (Some prefix)]))).
  { unfold_tool. rewrite Hcc; simpl. rewrite Hlist; simpl. rewrite <- app_assoc. reflexivity. }
  split; [apply new_calls_app; rewrite E; reflexivity |].
  rewrite E. simpl. unfold blobs_summary. repeat split.
  - intros Hne. destruct names; [contradiction | reflexivity].
  - intros -> ->. reflexivity.
  - intros -> Hp. destruct prefix; [contradiction | reflexivity].
Qed.

(** X9. The three listing tools have no not-found answer of their own: any
    exception of the listing, the not-found error of a missing container
    included, is answered with the tool's generic failure text carrying the
    exception's message. *)
Theorem listing_failures_are_generic (client : Client') (container prefix pattern : string)
    (w : World'') (e : exn) :
  (forall a1, sdk_list_containers client (account w) = (Raise e, a1) ->
     fst (list_containers (Some client) w) = Return ("Error listing containers: " +:+ str e))
  /\ (forall cc a1 a2,
        sdk_get_container_client client container (account w) = (Return cc, a1) ->
        sdk_list_blobs client cc (Some prefix) a1 = (Raise e, a2) ->
        fst (list_blobs (Some client) container prefix w)
        = Return ("Error listing blobs in " +:+ container +:+ ": " +:+ str e))
  /\ (forall cc a1 a2,
        sdk_get_container_client client container (account w) = (Return cc, a1) ->
        sdk_list_blobs client cc None a1 = (Raise e, a2) ->
        fst (search_blobs re (Some client) container pattern w)
        = Return ("Error searching blobs: " +:+ str e)).
Proof.
  split; [| split].
  - intros a1 H. unfold_tool. rewrite H. reflexivity.
  - intros cc a1 a2 Hcc H. unfold_tool. rewrite Hcc; simpl. rewrite H. reflexivity.
  - intros cc a1 a2 Hcc H. unfold_tool. rewrite Hcc; simpl. rewrite H. reflexivity.
Qed.

(** X10. The pattern of [search_blobs] stays on the client side: the calls
    made, the account and the disk after the search are the same for any two
    patterns, and every listing it asks for is without a name filter. *)
Theorem search_pattern_stays_local (client : Client') (container pattern1 pattern2 : string)
    (w : World'') :
  snd (search_blobs re (Some client) container pattern1 w)
  = snd (search_blobs re (Some client) container pattern2 w)
  /\ (forall cc name_starts_with,
        In (SdkListBlobs cc name_starts_with)
           (new_calls (search_blobs re (Some client) container pattern1) w) ->
        name_starts_with = None).
Proof.
  split.
  - unfold_tool. repeat case_call; reflexivity.
  - intros cc filter. unfold new_calls. unfold_tool.
    repeat case_call; settle_calls; intros Hin;
      repeat (destruct Hin as [Hin|Hin]; [try discriminate Hin |]); try contradiction;
      injection Hin; auto.
Qed.

(** X11. [create_container] makes one call, and its answer tells the
    outcome apart: the "created successfully" text is answered exactly when
    the client's create returned, the "already exists" text exactly when it
    raised the exists error. *)
Theorem create_container_outcomes (client : Client') (container : string) (w : World'') :
  new_calls (create_container (Some client) container) w = [SdkCreateContainer container]
  /\ (fst (create_container (Some client) container w)
      = Return ("Container '" +:+ container +:+ "' created successfully.")
      <-> exists a', sdk_create_container client container (account w) = (Return tt, a'))
  /\ (fst (create_container (Some client) container w)
      = Return ("Container '" +:+ container +:+ "' already exists.")
      <-> exists msg a',
            sdk_create_container client container (account w)
            = (Raise (ResourceExistsError msg), a')).
Proof.
  split; [apply new_calls_app; unfold_tool; repeat case_call; reflexivity |].
  unfold_tool.
  destruct (sdk_create_container client container (account w)) as [[[]|[m|m|m]] a'];
    simpl; (split; split).
  all: try (intros _; eauto; fail).
  all: try (intros H; exfalso; text_differs H).
  all: try (intros (? & ? & H) || intros (? & H); discriminate H).
  all: try reflexivity.
Qed.

(** X12. A delete is reported as done only when it was: the "deleted
    successfully" text of [delete_container] is answered exactly when the
    token is affirmative and the client's delete returned; that of
    [delete_blob] exactly when the token is affirmative, the client handed
    out the blob's handle and the delete on it returned. *)
Theorem delete_success_means_deleted (client : Client') (container blob_name confirm : string)
    (w : World'') :
  (fst (delete_container (Some client) container confirm w)
   = Return ("Container '" +:+ container +:+ "' deleted successfully.")
   <-> lower confirm = "yes"
       /\ exists a', sdk_delete_container client container (account w) = (Return tt, a'))
  /\ (fst (delete_blob (Some client) container blob_name confirm w)
      = Return ("Blob '" +:+ blob_name +:+ "' deleted successfully from container '"
                +:+ container +:+ "'.")
      <-> lower confirm = "yes"
          /\ exists bc a1 a2,
               sdk_get_blob_client client container blob_name (account w) = (Return bc, a1)
               /\ sdk_delete_blob client bc a1 = (Return tt, a2)).
Proof.
  split; unfold_tool; destruct (String.eqb (lower confirm) "yes") eqn:Hyes; simpl.
  - apply String.eqb_eq in Hyes.
    destruct (sdk_delete_container client container (account w)) as [[[]|[m|m|m]] a'];
      simpl; split.
    all: try (intros _; eauto; fail).
    all: try (intros H; exfalso; text_differs H).
    all: intros (_ & ? & H); discriminate H.
  - apply String.eqb_neq in Hyes. split.
    + intros H. discriminate H.
    + intros [H _]. contradiction.
  - apply String.eqb_eq in Hyes.
    destruct (sdk_get_blob_client client container blob_name (account w))
      as [[bc|[m|m|m]] a1] eqn:Hbc; simpl.
    2-4: split;
      [ intros H; exfalso; text_differs H
      | intros (_ & ? & ? & ? & H & _); discriminate H ].
    destruct (sdk_delete_blob client bc a1) as [[[]|[m|m|m]] a2] eqn:Hdel; simpl; split.
    all: try (intros _; split; [exact Hyes |]; eauto; fail).
    all: try (intros H; exfalso; text_differs H).
    all: try (intros (_ & ? & ? & ? & H & H'); injection H as <- <-;
              rewrite Hdel in H'; discriminate H').
    all: try reflexivity.
  - apply String.eqb_neq in Hyes. split.
    + intros H. discriminate H.
    + intros [H _]. contradiction.
Qed.

(** X13. A target name that is given is used as it is, and the content type
    is still guessed from the local path, not from the target name: once the
    handle is handed out and the file opens, the client's upload is run
    under exactly that name, with the bytes of the file, the overwrite flag
    set and that content type; the account afterwards is the one that
    upload left and the answer goes by what it produced. *)
Theorem upload_explicit_name (client : Client') (container local_file_path name : string)
    (w : World'') (cc : ContainerClient) (a1 : Account) (data : bytes) :
  fs_exists os local_file_path (disk w) = true ->
  truthy name = true ->
  sdk_get_container_client client container (account w) = (Return cc, a1) ->
  fs_open_rb os local_file_path (disk w) = Return data ->
  new_calls (upload_blob os guess_type (Some client) container local_file_path (Some name)) w
  = [ OsPathExists local_file_path; SdkGetContainerClient container; OpenRb local_file_path;
      SdkUploadBlob cc name data true {| cs_content_type := guess_type local_file_path |} ]
  /\ upload_blob os guess_type (Some client) container local_file_path (Some name) w
     = (Return (upload_answer container name
                  (fst (sdk_upload_blob client cc name data true
                          {| cs_content_type := guess_type local_file_path |} a1))),
        mkWorld
          (snd (sdk_upload_blob client cc name data true
                  {| cs_content_type := guess_type local_file_path |} a1))
          (disk w)
          (trace w ++ [ OsPathExists local_file_path; SdkGetContainerClient container;
                        OpenRb local_file_path;
                        SdkUploadBlob cc name data true
                          {| cs_content_type := guess_type local_file_path |} ])).
Proof.
  intros Hexists Hname Hcc Hopen.
  assert (Hrun := upload_blob_run os guess_type client container local_file_path
                    (Some name) w cc a1 data Hexists Hcc Hopen).
  assert (Hn : upload_name local_file_path (Some name) = name)
    by (unfold upload_name; simpl; rewrite Hname; reflexivity).
  rewrite Hn in Hrun. split; [| exact Hrun].
  apply new_calls_app. rewrite Hrun. reflexivity.
Qed.

(** X14. [upload_blob] asks for the container's handle before it opens the
    file, and opens the file before it uploads.  When the handle is refused
    the file is never opened; when the file does not open nothing is
    uploaded and the account is as the handle call left it; in each case,
    and when the upload itself raises, the answer is the container-not-found
    text for a not-found error and the generic text otherwise. *)
Theorem upload_failures (client : Client') (container local_file_path : string)
    (blob_name : option string) (w : World'') (e : exn) :
  fs_exists os local_file_path (disk w) = true ->
  (forall a1,
     sdk_get_container_client client container (account w) = (Raise e, a1) ->
     upload_blob os guess_type (Some client) container local_file_path blob_name w
     = (Return (upload_failure container e),
        mkWorld a1 (disk w)
          (trace w ++ [OsPathExists local_file_path; SdkGetContainerClient container])))
  /\ (forall cc a1,
        sdk_get_container_client client container (account w) = (Return cc, a1) ->
        fs_open_rb os local_file_path (disk w) = Raise e ->
        upload_blob os guess_type (Some client) container local_file_path blob_name w
        = (Return (upload_failure container e),
           mkWorld a1 (disk w)
             (trace w ++ [ OsPathExists local_file_path; SdkGetContainerClient container;
                           OpenRb local_file_path ])))
  /\ (forall cc a1 data a2,
        sdk_get_container_client client container (account w) = (Return cc, a1) ->
        fs_open_rb os local_file_path (disk w) = Return data ->
        sdk_upload_blob client cc (upload_name local_file_path blob_name) data true
          {| cs_content_type := guess_type local_file_path |} a1 = (Raise e, a2) ->
        fst (upload_blob os guess_type (Some client) container local_file_path blob_name w)
        = Return (upload_failure container e)).
Proof.
  intros Hexists. split; [| split].
  - intros a1 Hcc. unfold_tool. rewrite Hexists; simpl. rewrite Hcc; simpl.
    rewrite <- app_assoc. destruct e; reflexivity.
  - intros cc a1 Hcc Hopen. unfold_tool. rewrite Hexists; simpl. rewrite Hcc; simpl.
    rewrite Hopen; simpl. rewrite <- !app_assoc. destruct e; reflexivity.
  - intros cc a1 data a2 Hcc Hopen Hup. unfold_tool. rewrite Hexists; simpl.
    rewrite Hcc; simpl. rewrite Hopen; simpl. rewrite Hup; simpl. destruct e; reflexivity.
Qed.

(** X15. When every step of [download_blob] succeeds, the five calls are the
    handle, the open of the destination, the fetch, the read and the write,
    in that order; the destination ends up holding exactly the bytes the
    read returned, and the answer names the blob and the destination. *)
Theorem download_writes_what_it_read (client : Client') (container blob_name : string)
    (local_file_path : option string) (w : World'') (bc : BlobClient)
    (a1 a2 a3 : Account) (d1 d2 : Disk) (downloader : Downloader) (content : bytes) :
  truncating os ->
  appending os ->
  sdk_get_blob_client client container blob_name (account w) = (Return bc, a1) ->
  fs_open_wb os (download_destination blob_name local_file_path) (disk w) = (Return tt, d1) ->
  sdk_download_blob client bc a1 = (Return downloader, a2) ->
  sdk_readall client downloader a2 = (Return content, a3) ->
  fs_write os (download_destination blob_name local_file_path) content d1 = (Return tt, d2) ->
  download_blob os (Some client) container blob_name local_file_path w
  = (Return ("Blob '" +:+ blob_name +:+ "' downloaded successfully to '"
             +:+ download_destination blob_name local_file_path +:+ "'"),
     mkWorld a3 d2
       (trace w ++ [ SdkGetBlobClient container blob_name;
                     OpenWb (download_destination blob_name local_file_path);
                     SdkDownloadBlob bc; SdkReadall;
                     FileWrite (download_destination blob_name local_file_path) content ]))
  /\ fs_content os d2 (download_destination blob_name local_file_path) = Some content.
Proof.
  intros Htrunc Happ Hbc Hopen Hfetch Hread Hwrite. split.
  - unfold_tool. rewrite Hbc; simpl. rewrite Hopen; simpl. rewrite Hfetch; simpl.
    rewrite Hread; simpl. rewrite Hwrite; simpl. rewrite <- !app_assoc. reflexivity.
  - exact (Happ _ _ _ _ _ Hwrite (Htrunc _ _ _ Hopen)).
Qed.

(** X16. Once the destination has been opened, any failure to get the
    blob's bytes, at the fetch or at the read and of whatever kind, leaves
    the destination empty: nothing is written, and what the path held before
    is gone. *)
Theorem failed_download_empties_destination (client : Client') (container blob_name : string)
    (local_file_path : option string) (w : World'') (bc : BlobClient) (a1 : Account)
    (d1 : Disk) (e : exn) :
  truncating os ->
  sdk_get_blob_client client container blob_name (account w) = (Return bc, a1) ->
  fs_open_wb os (download_destination blob_name local_file_path) (disk w) = (Return tt, d1) ->
  ((exists a2, sdk_download_blob client bc a1 = (Raise e, a2))
   \/ (exists downloader a2 a3,
         sdk_download_blob client bc a1 = (Return downloader, a2)
         /\ sdk_readall client downloader a2 = (Raise e, a3))) ->
  fst (download_blob os (Some client) container blob_name local_file_path w)
  = Return (download_failure container blob_name e)
  /\ disk (snd (download_blob os (Some client) container blob_name local_file_path w)) = d1
  /\ fs_content os d1 (download_destination blob_name local_file_path) = Some []
  /\ forallb (fun ev => match ev with FileWrite _ _ => false | _ => true end)
       (new_calls (download_blob os (Some client) container blob_name local_file_path) w)
     = true.
Proof.
  intros Htrunc Hbc Hopen Hfail.
  assert (Hempty := Htrunc _ _ _ Hopen).
  unfold new_calls.
  destruct Hfail as [(a2 & Hfetch) | (downloader & a2 & a3 & Hfetch & Hread)];
    unfold_tool; rewrite Hbc; simpl; rewrite Hopen; simpl; rewrite Hfetch; simpl;
    rewrite ?Hread; simpl; destruct e; simpl; settle_calls;
    repeat split; exact Hempty.
Qed.

(** X17. The name or destination taken by default is a bare file name: it
    holds no slash, and for a path made of a directory part, a slash and a
    slash-free name it is that name.  So an upload without a target name
    never lands under a virtual directory, and a download without a local
    path never leaves the working directory. *)
Theorem default_names_are_bare (path : string) (omitted : option string) :
  truthy_opt omitted = false ->
  has_slash (upload_name path omitted) = false
  /\ has_slash (download_destination path omitted) = false
  /\ (forall dir name : string,
        has_slash name = false ->
        upload_name (dir +:+ "/" +:+ name) omitted = name
        /\ download_destination (dir +:+ "/" +:+ name) omitted = name).
Proof.
  intros Homitted. unfold upload_name, download_destination. rewrite Homitted. simpl.
  assert (Hbare : has_slash (basename path) = false)
    by (apply basename_from_no_slash; reflexivity).
  split; [exact Hbare |]. split; [exact Hbare |].
  intros dir name Hname.
  assert (E : basename (dir +:+ "/" +:+ name) = name).
  { unfold basename. induction dir as [|c dir IH].
    - change ("" +:+ "/" +:+ name) with (String "/" name). simpl.
      apply (basename_from_plain "" name Hname).
    - rewrite append_cons. simpl. destruct (Ascii.eqb c "/"); [exact IH |].
      rewrite (basename_from_restart _ "" dir name). exact IH. }
  split; exact E.
Qed.

(** X18. Upload then download gives the file back: when the local file
    opens with bytes [data], the upload under a given name returns, and the
    client then delivers for that name the bytes it was handed, the
    destination of the download ends up holding [data]. *)
Theorem upload_then_download_round_trip (client : Client')
    (container source name destination : string) (w : World'')
    (cc : ContainerClient) (bc : BlobClient) (downloader : Downloader)
    (a1 a2 a3 a4 a5 : Account) (d1 d2 : Disk) (data : bytes) :
  truncating os ->
  appending os ->
  truthy name = true ->
  truthy destination = true ->
  fs_exists os source (disk w) = true ->
  sdk_get_container_client client container (account w) = (Return cc, a1) ->
  fs_open_rb os source (disk w) = Return data ->
  sdk_upload_blob client cc name data true {| cs_content_type := guess_type source |} a1
  = (Return tt, a2) ->
  sdk_get_blob_client client container name a2 = (Return bc, a3) ->
  fs_open_wb os destination (disk w) = (Return tt, d1) ->
  sdk_download_blob client bc a3 = (Return downloader, a4) ->
  sdk_readall client downloader a4 = (Return data, a5) ->
  fs_write os destination data d1 = (Return tt, d2) ->
  let uploaded :=
    snd (upload_blob os guess_type (Some client) container source (Some name) w) in
  let downloaded :=
    snd (download_blob os (Some client) container name (Some destination) uploaded) in
  fs_content os (disk downloaded) destination = Some data.
Proof.
  intros Htrunc Happ Hname Hdest Hexists Hcc Hopen Hup Hbc Hwb Hfetch Hread Hwrite.
  assert (Eup : upload_blob os guess_type (Some client) container source (Some name) w
                = (Return ("File uploaded successfully to '" +:+ container +:+ "/" +:+ name
                           +:+ "'"),
                   mkWorld a2 (disk w)
                     (trace w ++ [ OsPathExists source; SdkGetContainerClient container;
                                   OpenRb source;
                                   SdkUploadBlob cc name data true
                                     {| cs_content_type := guess_type source |} ]))).
  { unfold_tool. rewrite Hexists; simpl. unfold upload_name; simpl. rewrite Hname; simpl.
    rewrite Hcc; simpl. rewrite Hopen; simpl. rewrite Hup; simpl.
    rewrite <- !app_assoc. reflexivity. }
  cbv zeta. rewrite Eup. simpl.
  unfold_tool. unfold download_destination; simpl. rewrite Hdest; simpl.
  rewrite Hbc; simpl. rewrite Hwb; simpl. rewrite Hfetch; simpl. rewrite Hread; simpl.
  rewrite Hwrite; simpl.
  exact (Happ _ _ _ _ _ Hwrite (Htrunc _ _ _ Hwb)).
Qed.

(** X19. In the snapshot of [get_blob_info] the name is the one asked for; a
    blob without timestamps gets the text [None] for them, while a missing
    content type or lease status becomes JSON's null. *)
Theorem get_blob_info_absent_attributes (client : Client') (container blob_name : string)
    (w : World'') (bc : BlobClient) (a1 a2 : Account) (props : BlobProperties) :
  sdk_get_blob_client client container blob_name (account w) = (Return bc, a1) ->
  sdk_get_blob_properties client bc a1 = (Return props, a2) ->
  exists info : json,
    fst (get_blob_info (Some client) container blob_name w) = Return (json_dumps_indent2 info)
    /\ List.map fst (match info with JObject fields => fields | _ => [] end)
       = ["name"; "size_bytes"; "content_type"; "last_modified"; "creation_time";
          "lease_status"; "metadata"]
    /\ json_field "name" info = Some (JString blob_name)
    /\ (bp_last_modified props = None -> json_field "last_modified" info = Some (JString "None"))
    /\ (bp_creation_time props = None -> json_field "creation_time" info = Some (JString "None"))
    /\ (bp_content_type props = None -> json_field "content_type" info = Some JNull)
    /\ (bp_lease_status props = None -> json_field "lease_status" info = Some JNull).
Proof.
  intros Hbc Hprops. exists (blob_info blob_name props).
  split.
  - unfold_tool. rewrite Hbc; simpl. rewrite Hprops; reflexivity.
  - simpl. repeat split; intros ->; reflexivity.
Qed.


(** X21. Only [upload_blob] and [download_blob] touch the local
    filesystem: every call any other tool makes is a call to the storage
    client. *)
Theorem only_transfers_touch_files (client : option Client') (call : Invocation)
    (w : World'') :
  (forall container local_file_path blob_name,
     call <> UploadBlob container local_file_path blob_name) ->
  (forall container blob_name local_file_path,
     call <> DownloadBlob container blob_name local_file_path) ->
  forallb is_sdk_call (new_calls (invoke os re guess_type client call) w) = true.
Proof.
  intros Hup Hdown. unfold new_calls.
  destruct client as [client|];
    [| destruct call; simpl; rewrite drop_all; reflexivity].
  destruct call;
    try (exfalso; eapply Hup; reflexivity); try (exfalso; eapply Hdown; reflexivity);
    unfold_tool; repeat case_call; settle_calls; reflexivity.
Qed.

End More.

(** * The further properties on the sample worlds *)

Lemma MemFS_appending : appending MemFS.os.
Proof.
  intros p data d d' old. simpl. unfold MemFS.write, MemFS.content.
  destruct (d !! p) as [[content|]|]; intros [= <-] [= <-].
  rewrite lookup_insert_eq. reflexivity.
Qed.

Lemma missing_connection_string_disables_tools_witness :
  invoke MemFS.os MiniRe.re Demo.guess_type
    (fst (startup None (fun _ => Return MemAccount.client)))
    ListContainers (Demo.world Demo.account_ab Demo.empty_disk)
  = (Return NOT_INITIALIZED, Demo.world Demo.account_ab Demo.empty_disk).
Proof.
  apply (missing_connection_string_disables_tools MemFS.os MiniRe.re Demo.guess_type
           None (fun _ => Return MemAccount.client) ListContainers
           (Demo.world Demo.account_ab Demo.empty_disk)).
  reflexivity.
Defined.

Lemma only_download_changes_disk_witness :
  disk (snd (invoke MemFS.os MiniRe.re Demo.guess_type (Some MemAccount.client)
               (UploadBlob "c" "docs/notes.txt" None)
               (Demo.world Demo.account_c Demo.disk_notes)))
  = Demo.disk_notes.
Proof.
  apply (only_download_changes_disk MemFS.os MiniRe.re Demo.guess_type
           (Some MemAccount.client) (UploadBlob "c" "docs/notes.txt" None)
           (Demo.world Demo.account_c Demo.disk_notes)).
  intros container blob_name local_file_path. discriminate.
Defined.

Lemma mutations_belong_to_their_tool_witness :
  "a" = "a" /\ lower (default "no" (Some "YES")) = "yes".
Proof.
  apply (mutations_belong_to_their_tool MemFS.os MiniRe.re Demo.guess_type
           MemAccount.client (DeleteContainer "a" (Some "YES"))
           (Demo.world Demo.account_ab Demo.empty_disk) (SdkDeleteContainer "a")).
  - left. reflexivity.
  - reflexivity.
Defined.

Lemma list_blobs_summary_witness :
  fst (list_blobs (Some MemAccount.client) "c" "a" (Demo.world Demo.account_c Demo.empty_disk))
  = Return "Found 2 blobs in c: abc, axy"
  /\ fst (list_blobs (Some MemAccount.client) "c" "z"
            (Demo.world Demo.account_c Demo.empty_disk))
     = Return "No blobs found in c with prefix 'z'"
  /\ fst (list_blobs (Some MemAccount.client) "c" ""
            (Demo.world Demo.account_empty_c Demo.empty_disk))
     = Return "No blobs found in c.".
Proof.
  split; [| split].
  - apply (list_blobs_summary MemAccount.client "c" "a"
             (Demo.world Demo.account_c Demo.empty_disk) Demo.container_c ["abc"; "axy"]
             Demo.account_c Demo.account_c eq_refl eq_refl).
    discriminate.
  - apply (list_blobs_summary MemAccount.client "c" "z"
             (Demo.world Demo.account_c Demo.empty_disk) Demo.container_c []
             Demo.account_c Demo.account_c eq_refl eq_refl).
    + reflexivity.
    + discriminate.
  - apply (list_blobs_summary MemAccount.client "c" ""
             (Demo.world Demo.account_empty_c Demo.empty_disk) Demo.container_c []
             Demo.account_empty_c Demo.account_empty_c eq_refl eq_refl); reflexivity.
Defined.

(** A container that does not exist is a generic failure for a listing. *)
Lemma listing_failures_are_generic_witness :
  fst (list_blobs (Some MemAccount.client) "nope" ""
         (Demo.world Demo.account_c Demo.empty_disk))
  = Return "Error listing blobs in nope: The specified container does not exist."
  /\ fst (search_blobs MiniRe.re (Some MemAccount.client) "nope" "^a"
            (Demo.world Demo.account_c Demo.empty_disk))
     = Return "Error searching blobs: The specified container does not exist.".
Proof.
  destruct (listing_failures_are_generic MiniRe.re MemAccount.client "nope" "" "^a"
              (Demo.world Demo.account_c Demo.empty_disk) MemAccount.no_container)
    as (_ & Hlist & Hsearch).
  split.
  - exact (Hlist {| cc_container_name := "nope" |} Demo.account_c Demo.account_c
             eq_refl eq_refl).
  - exact (Hsearch {| cc_container_name := "nope" |} Demo.account_c Demo.account_c
             eq_refl eq_refl).
Defined.

Lemma upload_explicit_name_witness :
  new_calls (upload_blob MemFS.os Demo.guess_type (Some MemAccount.client) "c"
               "docs/notes.txt" (Some "pic.png"))
    (Demo.world Demo.account_c Demo.disk_notes)
  = [ OsPathExists "docs/notes.txt"; SdkGetContainerClient "c"; OpenRb "docs/notes.txt";
      SdkUploadBlob Demo.container_c "pic.png" Demo.three_bytes true
        {| cs_content_type := Some "text/plain" |} ]
  /\ upload_blob MemFS.os Demo.guess_type (Some MemAccount.client) "c" "docs/notes.txt"
       (Some "pic.png") (Demo.world Demo.account_empty_c Demo.disk_notes)
     = (Return "File uploaded successfully to 'c/pic.png'",
        mkWorld
          [("c", [("pic.png",
                   MemAccount.new_blob Demo.three_bytes
                     {| cs_content_type := Some "text/plain" |})])]
          Demo.disk_notes
          [ OsPathExists "docs/notes.txt"; SdkGetContainerClient "c"; OpenRb "docs/notes.txt";
            SdkUploadBlob Demo.container_c "pic.png" Demo.three_bytes true
              {| cs_content_type := Some "text/plain" |} ]).
Proof.
  split.
  - apply (upload_explicit_name MemFS.os Demo.guess_type MemAccount.client "c"
             "docs/notes.txt" "pic.png" (Demo.world Demo.account_c Demo.disk_notes)
             Demo.container_c Demo.account_c Demo.three_bytes eq_refl eq_refl eq_refl eq_refl).
  - apply (upload_explicit_name MemFS.os Demo.guess_type MemAccount.client "c"
             "docs/notes.txt" "pic.png" (Demo.world Demo.account_empty_c Demo.disk_notes)
             Demo.container_c Demo.account_empty_c Demo.three_bytes
             eq_refl eq_refl eq_refl eq_refl).
Defined.

(** A directory exists but does not open: nothing is uploaded. *)
Lemma upload_failures_witness :
  upload_blob MemFS.os Demo.guess_type (Some MemAccount.client) "c" "docs" None
    (Demo.world Demo.account_c Demo.disk_notes)
  = (Return "Error uploading file: [Errno 21] Is a directory: 'docs'",
     mkWorld Demo.account_c Demo.disk_notes
       [OsPathExists "docs"; SdkGetContainerClient "c"; OpenRb "docs"]).
Proof.
  apply (proj1 (proj2 (upload_failures MemFS.os Demo.guess_type MemAccount.client "c" "docs"
                         None (Demo.world Demo.account_c Demo.disk_notes)
                         (MemFS.eisdir "docs") eq_refl))
           Demo.container_c Demo.account_c eq_refl eq_refl).
Defined.

Lemma download_writes_what_it_read_witness :
  fs_content MemFS.os
    (<["abc.bin" := MemFS.File Demo.three_bytes]> Demo.disk_notes) "abc.bin"
  = Some Demo.three_bytes.
Proof.
  apply (download_writes_what_it_read MemFS.os MemAccount.client "c" "abc" (Some "abc.bin")
           (Demo.world Demo.account_c Demo.disk_notes)
           {| bc_container_name := "c"; bc_blob_name := "abc" |}
           Demo.account_c Demo.account_c Demo.account_c
           (<["abc.bin" := MemFS.File []]> Demo.disk_notes)
           (<["abc.bin" := MemFS.File Demo.three_bytes]> Demo.disk_notes)
           Demo.three_bytes Demo.three_bytes
           MemFS_truncating MemFS_appending eq_refl eq_refl eq_refl eq_refl).
  vm_compute. reflexivity.
Defined.

Lemma failed_download_empties_destination_witness :
  fst (download_blob MemFS.os (Some MemAccount.client) "nope" "abc" (Some "out.bin")
         (Demo.world Demo.account_c Demo.disk_notes))
  = Return "Blob 'abc' not found in container 'nope'."
  /\ fs_content MemFS.os (<["out.bin" := MemFS.File []]> Demo.disk_notes) "out.bin" = Some [].
Proof.
  destruct (failed_download_empties_destination MemFS.os MemAccount.client "nope" "abc"
              (Some "out.bin") (Demo.world Demo.account_c Demo.disk_notes)
              {| bc_container_name := "nope"; bc_blob_name := "abc" |} Demo.account_c
              (<["out.bin" := MemFS.File []]> Demo.disk_notes) MemAccount.no_container
              MemFS_truncating eq_refl eq_refl
              (or_introl (ex_intro _ Demo.account_c eq_refl)))
    as (Hanswer & _ & Hempty & _).
  split; [exact Hanswer | exact Hempty].
Defined.

Lemma default_names_are_bare_witness :
  upload_name ("a/b" +:+ "/" +:+ "c.txt") None = "c.txt"
  /\ download_destination ("a/b" +:+ "/" +:+ "c.txt") None = "c.txt".
Proof.
  apply (proj2 (proj2 (default_names_are_bare "a/b/c.txt" None eq_refl)) "a/b" "c.txt").
  reflexivity.
Defined.

Lemma get_blob_info_absent_attributes_witness :
  exists info : json,
    fst (get_blob_info (Some MemAccount.client) "c" "bcd"
           (Demo.world Demo.account_c Demo.empty_disk))
    = Return (json_dumps_indent2 info)
    /\ json_field "name" info = Some (JString "bcd").
Proof.
  destruct (get_blob_info_absent_attributes MemAccount.client "c" "bcd"
              (Demo.world Demo.account_c Demo.empty_disk)
              {| bc_container_name := "c"; bc_blob_name := "bcd" |}
              Demo.account_c Demo.account_c
              (MemAccount.properties_of (Demo.blob [] [])) eq_refl eq_refl)
    as (info & Htext & _ & Hname & _).
  exists info. split; [exact Htext | exact Hname].
Defined.

(** The text file goes up as f and comes back as copy.txt. *)
Lemma upload_then_download_round_trip_witness :
  fs_content MemFS.os
    (disk (snd (download_blob MemFS.os (Some MemAccount.client) "c" "f" (Some "copy.txt")
                  (snd (upload_blob MemFS.os Demo.guess_type (Some MemAccount.client) "c"
                          "docs/notes.txt" (Some "f")
                          (Demo.world Demo.account_c Demo.disk_notes))))))
    "copy.txt"
  = Some Demo.three_bytes.
Proof.
  refine (upload_then_download_round_trip MemFS.os Demo.guess_type MemAccount.client
            "c" "docs/notes.txt" "f" "copy.txt" (Demo.world Demo.account_c Demo.disk_notes)
            Demo.container_c {| bc_container_name := "c"; bc_blob_name := "f" |}
            Demo.three_bytes
            Demo.account_c _ _ _ _
            (<["copy.txt" := MemFS.File []]> Demo.disk_notes)
            (<["copy.txt" := MemFS.File Demo.three_bytes]> Demo.disk_notes)
            Demo.three_bytes
            MemFS_truncating MemFS_appending eq_refl eq_refl eq_refl eq_refl eq_refl
            _ _ _ _ _ _);
    reflexivity.
Defined.

Lemma only_transfers_touch_files_witness :
  forallb is_sdk_call
    (new_calls (invoke MemFS.os MiniRe.re Demo.guess_type (Some MemAccount.client)
                  (SearchBlobs "c" "^a"))
       (Demo.world Demo.account_c Demo.disk_notes))
  = true.
Proof.
  apply (only_transfers_touch_files MemFS.os MiniRe.re Demo.guess_type
           (Some MemAccount.client) (SearchBlobs "c" "^a")
           (Demo.world Demo.account_c Demo.disk_notes)); intros; discriminate.
Defined.

(** A blank before the word is not stripped: the prompt is answered and
    nothing is deleted.  [yEs] has the blob deleted from the account. *)
Lemma delete_acts_on_eight_tokens_witness :
  delete_container (Some MemAccount.client) "a" " yes"
    (Demo.world Demo.account_ab Demo.empty_disk)
  = (Return "To delete container 'a', set confirm parameter to 'yes'.",
     Demo.world Demo.account_ab Demo.empty_disk)
  /\ delete_blob (Some MemAccount.client) "c" "bcd" "yEs"
       (Demo.world Demo.account_c Demo.empty_disk)
     = (Return "Blob 'bcd' deleted successfully from container 'c'.",
        mkWorld
          [("c", [ ("abc", Demo.blob Demo.three_bytes [("owner", "ann")]);
                   ("axy", Demo.blob [Byte.x0a] []) ])]
          Demo.empty_disk
          [ SdkGetBlobClient "c" "bcd";
            SdkDeleteBlob {| bc_container_name := "c"; bc_blob_name := "bcd" |} ]).
Proof.
  split.
  - apply (proj2 (proj2 (proj2 (delete_acts_on_eight_tokens MemAccount.client "a" "b" " yes"
                                  (Demo.world Demo.account_ab Demo.empty_disk))))).
    unfold yes_spellings. simpl. intros H.
    repeat (destruct H as [H|H]; [discriminate H |]). exact H.
  - apply (proj2 (proj1 (proj2 (proj2 (delete_acts_on_eight_tokens MemAccount.client "c"
                                         "bcd" "yEs"
                                         (Demo.world Demo.account_c Demo.empty_disk))))
                    (or_intror (or_intror (or_introl eq_refl))))
             {| bc_container_name := "c"; bc_blob_name := "bcd" |} Demo.account_c eq_refl).
Defined.
